(** * pythonscripts: add.py, python-demo.py and run_command.py

    A shallow embedding of the three command-line scripts of the
    repository, and the properties their specification states about them.

    Python values are modelled as follows.
    - [int] is [Z] (unbounded), [str] is [string], [bool] is [bool],
      [None]-or-string is [option string].
    - The interpreter's surroundings (the random source, the system clock,
      the file system, the two output streams) are one explicit [World]
      that every effectful function threads through.
    - An exception is a value of [exn]; a computation returns an [outcome]. *)

From Stdlib Require Import ZArith Lia Ascii DecimalString.
From Stdlib Require String HexadecimalString.
From stdpp Require Import gmap strings.

Local Open Scope Z_scope.

(** ** Strings *)

(** The line feed, the double quote, the single quote and the backslash. *)
Definition LF : ascii := "010"%char.
Definition DQ : ascii := "034"%char.
Definition SQ : ascii := "039"%char.
Definition BSL : ascii := "092"%char.

Definition chr (c : ascii) : string := String c EmptyString.
Definition nl : string := chr LF.
Definition dq : string := chr DQ.

(** [str(n)] for an [int]. *)
Definition str_int (z : Z) : string := NilZero.string_of_int (Z.to_int z).

(** [sep.join(parts)]. *)
Definition join (sep : string) (parts : list string) : string :=
  String.concat sep parts.

(** [s.replace(a, b)] for single characters [a] and [b]. *)
Fixpoint replace_char (a b : ascii) (s : string) : string :=
  match s with
  | EmptyString => EmptyString
  | String c s' =>
      String (if Ascii.eqb c a then b else c) (replace_char a b s')
  end.

(** [sub in s]. *)
Fixpoint contains (sub s : string) : bool :=
  String.prefix sub s ||
  match s with
  | EmptyString => false
  | String _ s' => contains sub s'
  end.

(** [s.split("\n")]: the lines of a text; never empty. *)
Fixpoint lines (s : string) : list string :=
  match s with
  | EmptyString => [EmptyString]
  | String c s' =>
      if Ascii.eqb c LF then EmptyString :: lines s'
      else match lines s' with
           | l :: ls => String c l :: ls
           | [] => [chr c]
           end
  end.

(** [c in s] for a character. *)
Fixpoint has_char (c : ascii) (s : string) : bool :=
  match s with
  | EmptyString => false
  | String d s' => Ascii.eqb d c || has_char c s'
  end.

(** The first [k] characters of a text ([s[:k]]). *)
Fixpoint take_s (k : nat) (s : string) : string :=
  match k, s with
  | S k', String c s' => String c (take_s k' s')
  | _, _ => EmptyString
  end.

(** Zero-padded two-digit and four-digit fields of [strftime]. *)
Definition pad2 (z : Z) : string :=
  if z <? 10 then "0" +:+ str_int z else str_int z.

Definition pad4 (z : Z) : string :=
  if z <? 10 then "000" +:+ str_int z
  else if z <? 100 then "00" +:+ str_int z
  else if z <? 1000 then "0" +:+ str_int z
  else str_int z.

(** ** Exceptions and the world *)

Inductive exn : Type :=
| ValueError (msg : string)
| IndexError (msg : string)
| OverflowError (msg : string)
| OSError (msg : string)
| SystemExit (code : Z).

(** [str(e)]. *)
Definition str_exn (e : exn) : string :=
  match e with
  | ValueError m | IndexError m | OverflowError m | OSError m => m
  | SystemExit c => str_int c
  end.

(** [isinstance(e, Exception)]: [SystemExit] derives from [BaseException]
    only, so [except Exception] lets it through. *)
Definition is_Exception (e : exn) : bool :=
  match e with
  | SystemExit _ => false
  | _ => true
  end.

Inductive outcome (A : Type) : Type :=
| Ret (a : A)
| Raise (e : exn).
Arguments Ret {A} a.
Arguments Raise {A} e.

(** A [datetime], kept as the proleptic Gregorian ordinal of its date
    ([date.toordinal()], 1 for 0001-01-01) and its time of day. *)
Record datetime : Type := mkDatetime {
  dt_ordinal : Z;
  dt_hour : Z;
  dt_minute : Z;
  dt_second : Z
}.

(** How the operating system answers [open(path, 'w')] followed by a
    [write] and the closing of the file: either the data are written, or an
    [OSError] with the given message leaves the [with] block; in that case
    the path holds what [rest] says ([None]: the file system is unchanged;
    [Some p]: the file was created or truncated and holds [p]). *)
Inductive write_answer : Type :=
| WriteOk
| WriteFails (msg : string) (rest : option string).

Record World : Type := mkWorld {
  rand_src : nat -> Z;            (* the raw draws of the [random] module *)
  rand_pos : nat;                 (* how many were consumed *)
  clock : nat -> datetime;        (* successive readings of [datetime.now()] *)
  clock_pos : nat;
  disk : string -> write_answer;  (* the answer to writing a path *)
  fs : gmap string string;        (* files written so far: path to contents *)
  stdout : string;
  stderr : string;
  prog : string;                  (* the program name argparse reports *)
  usage : string                  (* the usage text argparse prints for the
                                     parser; it is laid out from the program
                                     name and the width of the terminal *)
}.

(** ** The monad of effectful Python code *)

Definition M (A : Type) : Type := World -> outcome A * World.

Definition ret {A} (a : A) : M A := fun w => (Ret a, w).

Definition bind {A B} (m : M A) (k : A -> M B) : M B :=
  fun w =>
    match m w with
    | (Ret a, w') => k a w'
    | (Raise e, w') => (Raise e, w')
    end.

Definition raise {A} (e : exn) : M A := fun w => (Raise e, w).

(** [try: body  except Exception as e: handler(e)]. *)
Definition try_except {A} (body : M A) (handler : exn -> M A) : M A :=
  fun w =>
    match body w with
    | (Ret a, w') => (Ret a, w')
    | (Raise e, w') =>
        if is_Exception e then handler e w' else (Raise e, w')
    end.

Declare Scope py_scope.
Delimit Scope py_scope with py.
Bind Scope py_scope with M.
Notation "x <- c1 ;; c2" := (bind c1 (fun x => c2))
  (at level 100, c1 at next level, c2 at level 200, right associativity)
  : py_scope.
Notation "c1 ;; c2" := (bind c1 (fun _ => c2))
  (at level 100, c2 at level 200, right associativity) : py_scope.
Local Open Scope py_scope.

(** [print(s)] and [print(s, file=sys.stderr)]: the text and a line feed. *)
Definition print (s : string) : M unit :=
  fun w =>
    (Ret tt,
     mkWorld (rand_src w) (rand_pos w) (clock w) (clock_pos w) (disk w)
       (fs w) (stdout w +:+ s +:+ nl) (stderr w) (prog w) (usage w)).

Definition eprint (s : string) : M unit :=
  fun w =>
    (Ret tt,
     mkWorld (rand_src w) (rand_pos w) (clock w) (clock_pos w) (disk w)
       (fs w) (stdout w) (stderr w +:+ s +:+ nl) (prog w) (usage w)).

(** [sys.exit(code)]. *)
Definition sys_exit {A} (code : Z) : M A := raise (SystemExit code).

(** The next raw draw of the random source. *)
Definition draw : M Z :=
  fun w =>
    (Ret (rand_src w (rand_pos w)),
     mkWorld (rand_src w) (S (rand_pos w)) (clock w) (clock_pos w) (disk w)
       (fs w) (stdout w) (stderr w) (prog w) (usage w)).

(** [random.randint(a, b)]: an integer of [a..b], both ends included. *)
Definition randint (a b : Z) : M Z :=
  if b <? a then
    raise (ValueError ("empty range in randrange(" +:+ str_int a +:+ ", "
                         +:+ str_int (b + 1) +:+ ")"))
  else r <- draw ;; ret (a + r mod (b - a + 1)).

(** [random.choice(seq)]: the element at a drawn index. *)
Definition choice {A} (seq : list A) : M A :=
  match seq with
  | [] => raise (IndexError "Cannot choose from an empty sequence")
  | x :: _ =>
      r <- draw ;;
      ret (nth (Z.to_nat (r mod Z.of_nat (length seq))) seq x)
  end.

(** [datetime.now()]. *)
Definition datetime_now : M datetime :=
  fun w =>
    (Ret (clock w (clock_pos w)),
     mkWorld (rand_src w) (rand_pos w) (clock w) (S (clock_pos w)) (disk w)
       (fs w) (stdout w) (stderr w) (prog w) (usage w)).

(** [with open(path, 'w') as f: f.write(data)]. *)
Definition write_file (path data : string) : M unit :=
  fun w =>
    match disk w path with
    | WriteOk =>
        (Ret tt,
         mkWorld (rand_src w) (rand_pos w) (clock w) (clock_pos w) (disk w)
           (<[path := data]> (fs w)) (stdout w) (stderr w) (prog w) (usage w))
    | WriteFails msg rest =>
        (Raise (OSError msg),
         mkWorld (rand_src w) (rand_pos w) (clock w) (clock_pos w) (disk w)
           (match rest with
            | Some p => <[path := p]> (fs w)
            | None => fs w
            end) (stdout w) (stderr w) (prog w) (usage w))
    end.

(** ** The [datetime] module: day arithmetic and [strftime] *)

(** [date.max.toordinal()]. *)
Definition MAXORDINAL : Z := 3652059.

Definition DAYS_IN_MONTH : list Z :=
  [-1; 31; 28; 31; 30; 31; 30; 31; 31; 30; 31; 30; 31].

Definition DAYS_BEFORE_MONTH : list Z :=
  [-1; 0; 31; 59; 90; 120; 151; 181; 212; 243; 273; 304; 334].

Definition b2z (b : bool) : Z := if b then 1 else 0.

(** The year, month and day of an ordinal, computed as CPython's
    [_ord2ymd] does, by cycles of 400, 100 and 4 years. *)
Definition ord2ymd (ordinal : Z) : Z * Z * Z :=
  let n := ordinal - 1 in
  let n400 := n / 146097 in
  let n := n mod 146097 in
  let n100 := n / 36524 in
  let n := n mod 36524 in
  let n4 := n / 1461 in
  let n := n mod 1461 in
  let n1 := n / 365 in
  let n := n mod 365 in
  let year := n400 * 400 + 1 + n100 * 100 + n4 * 4 + n1 in
  if (n1 =? 4) || (n100 =? 4) then (year - 1, 12, 31)
  else
    let leapyear := (n1 =? 3) && (negb (n4 =? 24) || (n100 =? 3)) in
    let month := Z.shiftr (n + 50) 5 in
    let preceding :=
      nth (Z.to_nat month) DAYS_BEFORE_MONTH 0
      + b2z ((2 <? month) && leapyear) in
    if n <? preceding then
      let month' := month - 1 in
      let preceding' :=
        preceding - (nth (Z.to_nat month') DAYS_IN_MONTH 0
                     + b2z ((month' =? 2) && leapyear)) in
      (year, month', n - preceding' + 1)
    else (year, month, n - preceding + 1).

(** [d.weekday()]: 0 is Monday. *)
Definition weekday (d : datetime) : Z := (dt_ordinal d + 6) mod 7.

(** The names [%a] and [%b] produce (C locale). *)
Definition DAY_ABBR : list string :=
  ["Mon"; "Tue"; "Wed"; "Thu"; "Fri"; "Sat"; "Sun"].

Definition MONTH_ABBR : list string :=
  ["Jan"; "Feb"; "Mar"; "Apr"; "May"; "Jun";
   "Jul"; "Aug"; "Sep"; "Oct"; "Nov"; "Dec"].

(** [d - timedelta(days=n)]: the time of day is kept; a date before
    0001-01-01 or after 9999-12-31 raises [OverflowError]. *)
Definition sub_days (d : datetime) (n : Z) : M datetime :=
  let o := dt_ordinal d - n in
  if (0 <? o) && (o <=? MAXORDINAL) then
    ret (mkDatetime o (dt_hour d) (dt_minute d) (dt_second d))
  else raise (OverflowError "date value out of range").

(** [d.strftime("%a %d-%b-%y %H:%M")]. *)
Definition strftime_compile (d : datetime) : string :=
  let '(year, month, day) := ord2ymd (dt_ordinal d) in
  nth (Z.to_nat (weekday d)) DAY_ABBR EmptyString +:+ " " +:+
  pad2 day +:+ "-" +:+
  nth (Z.to_nat (month - 1)) MONTH_ABBR EmptyString +:+ "-" +:+
  pad2 (year mod 100) +:+ " " +:+
  pad2 (dt_hour d) +:+ ":" +:+ pad2 (dt_minute d).

(** [d.strftime("%Y%m%d_%H%M%S")]. *)
Definition strftime_stamp (d : datetime) : string :=
  let '(year, month, day) := ord2ymd (dt_ordinal d) in
  pad4 year +:+ pad2 month +:+ pad2 day +:+ "_" +:+
  pad2 (dt_hour d) +:+ pad2 (dt_minute d) +:+ pad2 (dt_second d).

(** ** [int(s)], [repr(s)] and [json.dumps] on text

    Text is ASCII here: the digits and the blanks that [int] accepts beyond
    ASCII are not part of the model. The limit on the number of digits of
    a decimal conversion is the one the interpreter starts with
    ([sys.get_int_max_str_digits()] is 4300; the scripts do not change it).
    [int] is followed step by step as CPython 3.11 writes it
    ([PyLong_FromString] under [PyLong_FromUnicodeObject]): the limit is
    tested once the digits are read and before what follows them is looked
    at. (CPython 3.12 and later validate the whole text first: there,
    digits beyond the limit that are followed by a character that is no
    blank make an invalid literal.) *)

Definition MAX_STR_DIGITS : nat := 4300.

(** [Py_ISSPACE]: tab, line feed, vertical tab, form feed, carriage return
    and space. *)
Definition is_space (c : ascii) : bool :=
  let n := nat_of_ascii c in
  ((9 <=? n)%nat && (n <=? 13)%nat) || (n =? 32)%nat.

Fixpoint lstrip (l : list ascii) : list ascii :=
  match l with
  | c :: l' => if is_space c then lstrip l' else l
  | [] => []
  end.

Definition digit_of (c : ascii) : option Z :=
  let n := nat_of_ascii c in
  if (48 <=? n)%nat && (n <=? 57)%nat then Some (Z.of_nat (n - 48)) else None.

(** What the scan of the digits finds at the head of a text: a run of
    digits with single underscores between them, with its value, the
    number of its digits and the text after it; or an underscore that
    follows another one or ends the run. *)
Inductive digits_run : Type :=
| Run (value : Z) (digits : nat) (rest : list ascii)
| BadUnderscore.

Fixpoint scan_digits (l : list ascii) (acc : Z) (digits : nat)
    (after_underscore : bool) : digits_run :=
  match l with
  | [] => if after_underscore then BadUnderscore else Run acc digits []
  | c :: l' =>
      if Ascii.eqb c "_" then
        if after_underscore then BadUnderscore
        else scan_digits l' acc digits true
      else
        match digit_of c with
        | Some d => scan_digits l' (10 * acc + d) (S digits) false
        | None =>
            if after_underscore then BadUnderscore else Run acc digits l
        end
  end.

(** The sign, if there is one, and the text after it. *)
Definition split_sign (l : list ascii) : bool * list ascii :=
  match l with
  | c :: l' =>
      if Ascii.eqb c "+" then (false, l')
      else if Ascii.eqb c "-" then (true, l')
      else (false, l)
  | [] => (false, [])
  end.

Definition starts_with_underscore (l : list ascii) : bool :=
  match l with
  | c :: _ => Ascii.eqb c "_"
  | [] => false
  end.

(** The three ways [int(s)] ends. *)
Inductive int_result : Type :=
| IntValue (z : Z)
| IntInvalid
| IntTooLong (digits : nat).

(** Blanks, a sign, the digits; then the limit on the digits, the test
    that there was a digit at all, blanks, and the end of the text. *)
Definition int_of_text (s : string) : int_result :=
  let '(negative, body) :=
    split_sign (lstrip (String.list_ascii_of_string s)) in
  if starts_with_underscore body then IntInvalid
  else
    match scan_digits body 0 0 false with
    | BadUnderscore => IntInvalid
    | Run value digits rest =>
        if (MAX_STR_DIGITS <? digits)%nat then IntTooLong digits
        else if (digits =? 0)%nat then IntInvalid
        else
          match lstrip rest with
          | [] => IntValue (if negative then - value else value)
          | _ :: _ => IntInvalid
          end
    end.

(** The value of [int(s)] when it returns one. *)
Definition parse_int (s : string) : option Z :=
  match int_of_text s with
  | IntValue z => Some z
  | IntInvalid | IntTooLong _ => None
  end.

Definition hex_digit (n : nat) : ascii :=
  nth n (String.list_ascii_of_string "0123456789abcdef") "0"%char.

Definition hex2 (n : nat) : string :=
  String (hex_digit (n / 16)) (chr (hex_digit (n mod 16))).

(** [repr(s)]: single quotes, unless the text has a single quote and no
    double quote. *)
Definition repr_char (quote c : ascii) : string :=
  let n := nat_of_ascii c in
  if Ascii.eqb c BSL then String BSL (chr BSL)
  else if Ascii.eqb c quote then String BSL (chr quote)
  else if Ascii.eqb c LF then String BSL "n"
  else if Ascii.eqb c "013" then String BSL "r"
  else if Ascii.eqb c "009" then String BSL "t"
  else if (n <? 32)%nat || (n =? 127)%nat then String BSL ("x" +:+ hex2 n)
  else chr c.

Fixpoint repr_body (quote : ascii) (s : string) : string :=
  match s with
  | EmptyString => EmptyString
  | String c s' => repr_char quote c +:+ repr_body quote s'
  end.

Definition repr (s : string) : string :=
  let quote := if has_char SQ s && negb (has_char DQ s) then DQ else SQ in
  chr quote +:+ repr_body quote s +:+ chr quote.

(** [int(s)]. The message of an invalid literal shows the first 200
    characters of [repr(s)] (the format is [%.200R]). *)
Definition py_int (s : string) : M Z :=
  match int_of_text s with
  | IntValue z => ret z
  | IntInvalid =>
      raise (ValueError ("invalid literal for int() with base 10: "
                           +:+ take_s 200 (repr s)))
  | IntTooLong digits =>
      raise (ValueError
               ("Exceeds the limit (" +:+ str_int (Z.of_nat MAX_STR_DIGITS)
                +:+ " digits) for integer string conversion: value has "
                +:+ str_int (Z.of_nat digits)
                +:+ " digits; use sys.set_int_max_str_digits() to increase the limit"))
  end.

(** [int.__repr__(z)], which [str] and [json.dumps] use to write a number:
    it raises when the number has more digits than the limit. *)
Definition int_repr (z : Z) : M string :=
  if (MAX_STR_DIGITS <? String.length (str_int (Z.abs z)))%nat
  then
    raise (ValueError
             ("Exceeds the limit (" +:+ str_int (Z.of_nat MAX_STR_DIGITS)
              +:+ " digits) for integer string conversion; use sys.set_int_max_str_digits() to increase the limit"))
  else ret (str_int z).

(** A JSON string, as [json.dumps] writes it with [ensure_ascii]. *)
Definition json_char (c : ascii) : string :=
  let n := nat_of_ascii c in
  if Ascii.eqb c BSL then String BSL (chr BSL)
  else if Ascii.eqb c DQ then String BSL (chr DQ)
  else if Ascii.eqb c "008" then String BSL "b"
  else if Ascii.eqb c "012" then String BSL "f"
  else if Ascii.eqb c LF then String BSL "n"
  else if Ascii.eqb c "013" then String BSL "r"
  else if Ascii.eqb c "009" then String BSL "t"
  else if (n <? 32)%nat || (126 <? n)%nat then String BSL ("u00" +:+ hex2 n)
  else chr c.

Fixpoint json_body (s : string) : string :=
  match s with
  | EmptyString => EmptyString
  | String c s' => json_char c +:+ json_body s'
  end.

Definition json_string (s : string) : string := dq +:+ json_body s +:+ dq.

(** [k] zeros. *)
Fixpoint zeros (k : nat) : string :=
  match k with
  | O => EmptyString
  | S k' => String "0" (zeros k')
  end.

(** The digits of [format(n, 'x')] for [n >= 0]: lower-case hexadecimal. *)
Definition hex_digits (n : N) : string :=
  HexadecimalString.NilZero.string_of_uint (N.to_hex_uint n).

(** ["{:04x}".format(z)]: lower-case hexadecimal, filled with zeros after
    the sign up to a width of four characters. *)
Definition format_04x (z : Z) : string :=
  let digits := hex_digits (Z.abs_N z) in
  if z <? 0
  then "-" +:+ zeros (3 - String.length digits) +:+ digits
  else zeros (4 - String.length digits) +:+ digits.

(** The exit status of a script whose top level ended with [r]: 0 when it
    ran to its end, the code of a [SystemExit], and 1 when another
    exception reached the top level. *)
Definition exit_status (r : outcome unit) : Z :=
  match r with
  | Ret _ => 0
  | Raise (SystemExit code) => code
  | Raise _ => 1
  end.

(** [parser.error(message)]: the usage text and the message on the error
    stream, then exit status 2. *)
Definition parser_error {A} (message : string) : M A :=
  fun w =>
    (Raise (SystemExit 2),
     mkWorld (rand_src w) (rand_pos w) (clock w) (clock_pos w) (disk w)
       (fs w) (stdout w)
       (stderr w +:+ usage w +:+ prog w +:+ ": error: " +:+ message +:+ nl)
       (prog w) (usage w)).

(** ** add.py *)

Module Add.

(** The parsed arguments: both flags are required and are kept as text. *)
Record Namespace : Type := mkNamespace {
  num1 : string;
  num2 : string
}.

(** The text of [{"success": True, "sum": result}] once the number is
    written as [sum]. *)
Definition output_text (sum : string) : string :=
  "{" +:+ json_string "success" +:+ ": true, " +:+
  json_string "sum" +:+ ": " +:+ sum +:+ "}".

(** [json.dumps({"success": True, "sum": result})]: it raises when the
    number cannot be written. *)
Definition json_dumps_output (result : Z) : M string :=
  sum <- int_repr result ;;
  ret (output_text sum).

(** What [json.dumps({"success": True, "sum": result})] returns when it
    returns. *)
Definition dumps_output (result : Z) : string :=
  output_text (str_int result).

(** [json.dumps({"error": str(e), "success": False})]. *)
Definition dumps_error (msg : string) : string :=
  "{" +:+ json_string "error" +:+ ": " +:+ json_string msg +:+ ", " +:+
  json_string "success" +:+ ": false}".

Definition main (args : Namespace) : M unit :=
  try_except
    (a <- py_int (num1 args) ;;
     b <- py_int (num1 args) ;;
     let result := a + b in
     output <- json_dumps_output result ;;
     print output ;;
     sys_exit 0)
    (fun e =>
       eprint ("Error: " +:+ str_exn e) ;;
       print (dumps_error (str_exn e)) ;;
       sys_exit 1).

End Add.

(** ** python-demo.py *)

Module PythonDemo.

Record Namespace : Type := mkNamespace {
  echo : string
}.

Definition main (args : Namespace) : M unit :=
  print (echo args).

End PythonDemo.

(** ** run_command.py *)

Module RunCommand.

Definition generate_random_version : M string :=
  major <- randint 15 17 ;;
  minor <- randint 1 12 ;;
  patch <- randint 1 9 ;;
  suffix <- choice [EmptyString; EmptyString; EmptyString; "a"; "b"; "c"] ;;
  ret (str_int major +:+ "." +:+ str_int minor +:+ "." +:+ str_int patch
         +:+ suffix).

Definition generate_random_uptime : M (Z * Z * Z * Z) :=
  weeks <- randint 0 52 ;;
  days <- randint 0 6 ;;
  hours <- randint 0 23 ;;
  minutes <- randint 0 59 ;;
  ret (weeks, days, hours, minutes).

(** [''.join(random.choice(chars) for _ in range(n))]. *)
Fixpoint join_choices (n : nat) (chars : list ascii) : M string :=
  match n with
  | O => ret EmptyString
  | S n' =>
      c <- choice chars ;;
      s <- join_choices n' chars ;;
      ret (String c s)
  end.

Definition generate_random_serial : M string :=
  let chars :=
    String.list_ascii_of_string "ABCDEFGHIJKLMNOPQRSTUVWXYZ0123456789" in
  join_choices 11 chars.

(** [[random.randint(a, b) for _ in range(n)]]. *)
Fixpoint randints (n : nat) (a b : Z) : M (list Z) :=
  match n with
  | O => ret []
  | S n' =>
      x <- randint a b ;;
      xs <- randints n' a b ;;
      ret (x :: xs)
  end.

Definition generate_random_mac : M string :=
  mac <- randints 6 0 255 ;;
  ret (format_04x (Z.shiftl (nth 0 mac 0) 8 + nth 1 mac 0) +:+ "." +:+
       format_04x (Z.shiftl (nth 2 mac 0) 8 + nth 3 mac 0) +:+ "." +:+
       format_04x (Z.shiftl (nth 4 mac 0) 8 + nth 5 mac 0)).

Definition generate_random_memory : M (Z * Z) :=
  processor <- choice [1024000; 2048000; 4096000; 8192000] ;;
  io <- choice [3075; 6147; 12291] ;;
  ret (processor, io).

(** ['s' if n != 1 else '']. *)
Definition plural (n : Z) : string :=
  if negb (n =? 1) then "s" else EmptyString.

(** The uptime text that [generate_show_version] builds in [uptime_parts]
    and joins into [uptime_str]. *)
Definition uptime_parts (weeks days hours minutes : Z) : list string :=
  let parts := [] in
  let parts :=
    if 0 <? weeks
    then parts ++ [str_int weeks +:+ " week" +:+ plural weeks]
    else parts in
  let parts :=
    if 0 <? days
    then parts ++ [str_int days +:+ " day" +:+ plural days]
    else parts in
  let parts := parts ++ [str_int hours +:+ " hour" +:+ plural hours] in
  let parts := parts ++ [str_int minutes +:+ " minute" +:+ plural minutes] in
  parts.

Definition uptime_str (weeks days hours minutes : Z) : string :=
  join ", " (uptime_parts weeks days hours minutes).

(** The text template of [generate_show_version], with its fields. *)
Definition output (version compile_str uptime : string)
    (processor_mem io_mem : Z) (serial : string)
    (nvram physical_mem virtual_disk : Z) (config_reg : string) : string :=
  "Cisco IOS XE Software, Version " +:+ version +:+ nl +:+
  "Cisco IOS Software [Amsterdam], Virtual XE Software (X86_64_LINUX_IOSD-UNIVERSALK9-M), Version "
    +:+ version +:+ ", RELEASE SOFTWARE (fc3)" +:+ nl +:+
  "Technical Support: http://www.cisco.com/techsupport" +:+ nl +:+
  "Copyright (c) 1986-2021 by Cisco Systems, Inc." +:+ nl +:+
  "Compiled " +:+ compile_str +:+ " by mcpre" +:+ nl +:+
  nl +:+
  "Cisco IOS-XE software, Copyright (c) 2005-2021 by cisco Systems, Inc."
    +:+ nl +:+
  "All rights reserved.  Certain components of Cisco IOS-XE software are"
    +:+ nl +:+
  "licensed under the GNU General Public License (" +:+ dq +:+ "GPL" +:+ dq
    +:+ ") Version 2.0." +:+ nl +:+
  nl +:+
  "ROM: IOS-XE ROMMON" +:+ nl +:+
  "BOOTLDR: Virtual XE ROM" +:+ nl +:+
  nl +:+
  "Router uptime is " +:+ uptime +:+ nl +:+
  "Uptime for this control processor is " +:+ uptime +:+ nl +:+
  "System returned to ROM by reload" +:+ nl +:+
  "System image file is " +:+ dq +:+ "bootflash:packages.conf" +:+ dq
    +:+ nl +:+
  "Last reload reason: reload" +:+ nl +:+
  nl +:+
  "This product contains cryptographic features and is subject to United"
    +:+ nl +:+
  "States and local country laws governing import, export, transfer and"
    +:+ nl +:+
  "use. Delivery of Cisco cryptographic products does not imply" +:+ nl +:+
  "third-party authority to import, export, distribute or use encryption."
    +:+ nl +:+
  nl +:+
  "cisco CSR1000V (VXE) processor (revision VXE) with "
    +:+ str_int processor_mem +:+ "K/" +:+ str_int io_mem
    +:+ "K bytes of memory." +:+ nl +:+
  "Processor board ID " +:+ serial +:+ nl +:+
  "Router operating mode: Autonomous" +:+ nl +:+
  "4 Gigabit Ethernet interfaces" +:+ nl +:+
  str_int nvram +:+ "K bytes of non-volatile configuration memory." +:+ nl +:+
  str_int physical_mem +:+ "K bytes of physical memory." +:+ nl +:+
  str_int virtual_disk +:+ "K bytes of virtual hard disk at bootflash:."
    +:+ nl +:+
  nl +:+
  "Configuration register is " +:+ config_reg.

Definition generate_show_version : M string :=
  version <- generate_random_version ;;
  uptime <- generate_random_uptime ;;
  let '(weeks, days, hours, minutes) := uptime in
  serial <- generate_random_serial ;;
  memory <- generate_random_memory ;;
  let '(processor_mem, io_mem) := memory in
  now <- datetime_now ;;
  age <- randint 30 1095 ;;
  compile_date <- sub_days now age ;;
  let compile_str := strftime_compile compile_date in
  nvram <- choice [32768; 65536; 131072; 262144] ;;
  physical_mem <- choice [3984776; 7969552; 15939104] ;;
  virtual_disk <- choice [6139904; 12279808; 24559616] ;;
  config_reg <- choice ["0x2102"; "0x2142"; "0x2100"] ;;
  ret (output version compile_str (uptime_str weeks days hours minutes)
         processor_mem io_mem serial nvram physical_mem virtual_disk
         config_reg).

(** An entry of the registry: a function to call, or a fixed text
    ([execute_mock_command] tests [callable(response_func)]). *)
Inductive response : Type :=
| Callable (f : M string)
| Static (s : string).

(** The registry, in insertion order. *)
Definition MOCK_RESPONSES : list (string * response) :=
  [("show version", Callable generate_show_version)].

(** [MOCK_RESPONSES.keys()]. *)
Definition keys (d : list (string * response)) : list string := d.*1.

(** [d[command]] when [command in d], [None] otherwise. *)
Fixpoint lookup_command (command : string) (d : list (string * response))
  : option response :=
  match d with
  | [] => None
  | (k, v) :: d' =>
      if String.eqb command k then Some v else lookup_command command d'
  end.

Definition INVALID_INPUT : string := "% Invalid input detected at '^' marker.".

Definition execute_mock_command (command : string) : M string :=
  match lookup_command command MOCK_RESPONSES with
  | Some response_func =>
      match response_func with
      | Callable f => f
      | Static s => ret s
      end
  | None => ret INVALID_INPUT
  end.

(** The parsed arguments: [-device_ip] (absent: [None]), [-command]
    (default ["show version"]), and the flags [-save] and [-list]. *)
Record Namespace : Type := mkNamespace {
  device_ip : option string;
  command : string;
  save : bool;
  list_ : bool      (* [args.list] *)
}.

(** [not args.device_ip]: [None] and the empty text are false values. *)
Definition falsy (o : option string) : bool :=
  match o with
  | None => true
  | Some EmptyString => true
  | Some _ => false
  end.

(** [f"{args.device_ip}"]. *)
Definition fmt_opt (o : option string) : string :=
  match o with
  | None => "None"
  | Some s => s
  end.

(** [for command in commands: print(f"  - {command}")]. *)
Fixpoint print_commands (commands : list string) : M unit :=
  match commands with
  | [] => ret tt
  | c :: cs => print ("  - " +:+ c) ;; print_commands cs
  end.

Definition main (args : Namespace) : M unit :=
  (if list_ args then
     print "Available commands:" ;;
     print_commands (keys MOCK_RESPONSES) ;;
     sys_exit 0
   else ret tt) ;;
  (if falsy (device_ip args)
   then parser_error "-device_ip is required (unless using -list)"
   else ret tt) ;;
  out <- execute_mock_command (command args) ;;
  print out ;;
  if save args then
    now <- datetime_now ;;
    let timestamp := strftime_stamp now in
    let filename :=
      fmt_opt (device_ip args) +:+ "_" +:+
      replace_char " " "_" (command args) +:+ "_" +:+ timestamp +:+ ".txt" in
    try_except
      (write_file filename out ;;
       eprint (nl +:+ "Output saved to " +:+ filename))
      (fun e => eprint (nl +:+ "ERROR: Failed to save file: " +:+ str_exn e))
  else ret tt.

(** The guarded call of [main] at the end of the script. An interruption
    from the keyboard arrives from outside the program and is not part of
    the model. *)
Definition script (args : Namespace) : M unit :=
  try_except (main args)
    (fun e => eprint (nl +:+ "% Error: " +:+ str_exn e) ;; sys_exit 1).

End RunCommand.

(** * Definitions used to state the properties *)

(** The world after [n] more draws and [c] more readings of the clock. *)
Definition moved (n c : nat) (w : World) : World :=
  mkWorld (rand_src w) (n + rand_pos w) (clock w) (c + clock_pos w) (disk w)
    (fs w) (stdout w) (stderr w) (prog w) (usage w).

(** The next reading of the clock is a date from which 1095 days can be
    taken: later than 0003-12-31 and not after 9999-12-31. *)
Definition clock_ok (w : World) : Prop :=
  1095 < dt_ordinal (clock w (clock_pos w)) <= MAXORDINAL.

(** The text [join_choices k (x :: l)] returns when the draws are [r i],
    [r (i + 1)], and so on. *)
Fixpoint picks (k : nat) (x : ascii) (l : list ascii) (r : nat -> Z)
    (i : nat) : string :=
  match k with
  | O => EmptyString
  | S k' =>
      String (nth (Z.to_nat (r i mod Z.of_nat (length (x :: l)))) (x :: l) x)
        (picks k' x l r (S i))
  end.

(** The randomized fields of one report of [generate_show_version]. *)
Record fields : Type := mkFields {
  f_version : string;
  f_compile_str : string;
  f_weeks : Z;
  f_days : Z;
  f_hours : Z;
  f_minutes : Z;
  f_processor_mem : Z;
  f_io_mem : Z;
  f_serial : string;
  f_nvram : Z;
  f_physical_mem : Z;
  f_virtual_disk : Z;
  f_config_reg : string
}.

Definition uptime_of (f : fields) : string :=
  RunCommand.uptime_str (f_weeks f) (f_days f) (f_hours f) (f_minutes f).

(** The report with the fields [f]. *)
Definition render (f : fields) : string :=
  RunCommand.output (f_version f) (f_compile_str f) (uptime_of f)
    (f_processor_mem f) (f_io_mem f) (f_serial f) (f_nvram f)
    (f_physical_mem f) (f_virtual_disk f) (f_config_reg f).

(** The value [random.randint(a, b)] makes of the raw draw [r], and the
    element [random.choice(x :: l)] makes of it. *)
Definition span (a b r : Z) : Z := a + r mod (b - a + 1).

Definition pick {A} (x : A) (l : list A) (r : Z) : A :=
  nth (Z.to_nat (r mod Z.of_nat (length (x :: l)))) (x :: l) x.

(** The [i]-th draw to come. *)
Definition raw (w : World) (i : nat) : Z := rand_src w (i + rand_pos w)%nat.

(** The fields [generate_show_version] draws in the world [w]: the draws
    0 to 3 make the version, 4 to 7 the uptime, 8 to 18 the serial number,
    19 and 20 the memory sizes, 21 the age of the build in days, and 22 to
    25 the remaining sizes and the configuration register. *)
Definition fields_of (w : World) : fields :=
  let now := clock w (clock_pos w) in
  mkFields
    (str_int (span 15 17 (raw w 0)) +:+ "." +:+
     str_int (span 1 12 (raw w 1)) +:+ "." +:+
     str_int (span 1 9 (raw w 2)) +:+
     pick EmptyString [EmptyString; EmptyString; "a"; "b"; "c"] (raw w 3))
    (strftime_compile
       (mkDatetime (dt_ordinal now - span 30 1095 (raw w 21))
          (dt_hour now) (dt_minute now) (dt_second now)))
    (span 0 52 (raw w 4))
    (span 0 6 (raw w 5))
    (span 0 23 (raw w 6))
    (span 0 59 (raw w 7))
    (pick 1024000 [2048000; 4096000; 8192000] (raw w 19))
    (pick 3075 [6147; 12291] (raw w 20))
    (picks 11 "A"
       (String.list_ascii_of_string "BCDEFGHIJKLMNOPQRSTUVWXYZ0123456789")
       (raw w) 8)
    (pick 32768 [65536; 131072; 262144] (raw w 22))
    (pick 3984776 [7969552; 15939104] (raw w 23))
    (pick 6139904 [12279808; 24559616] (raw w 24))
    (pick "0x2102" ["0x2142"; "0x2100"] (raw w 25)).

(** The compilation date [generate_show_version] computes is a date: the
    reading of the clock less the age drawn lies in 0001-01-01..9999-12-31.
    Otherwise the subtraction raises [OverflowError]. *)
Definition compile_date_ok (w : World) : Prop :=
  0 < dt_ordinal (clock w (clock_pos w)) - span 30 1095 (raw w 21)
  <= MAXORDINAL.

(** What [generate_show_version] guarantees of the fields it draws. *)
Definition drawn (f : fields) : Prop :=
  has_char LF (f_version f) = false /\
  has_char LF (f_compile_str f) = false /\
  has_char LF (f_serial f) = false /\
  0 <= f_weeks f <= 52 /\
  0 <= f_days f <= 6 /\
  0 <= f_hours f <= 23 /\
  0 <= f_minutes f <= 59 /\
  In (f_config_reg f) ["0x2102"; "0x2142"; "0x2100"].

(** The 33 lines of the report. *)
Definition report_lines (f : fields) : list string :=
  [ "Cisco IOS XE Software, Version " +:+ f_version f;
    "Cisco IOS Software [Amsterdam], Virtual XE Software (X86_64_LINUX_IOSD-UNIVERSALK9-M), Version "
      +:+ f_version f +:+ ", RELEASE SOFTWARE (fc3)";
    "Technical Support: http://www.cisco.com/techsupport";
    "Copyright (c) 1986-2021 by Cisco Systems, Inc.";
    "Compiled " +:+ f_compile_str f +:+ " by mcpre";
    EmptyString;
    "Cisco IOS-XE software, Copyright (c) 2005-2021 by cisco Systems, Inc.";
    "All rights reserved.  Certain components of Cisco IOS-XE software are";
    "licensed under the GNU General Public License (" +:+ dq +:+ "GPL" +:+ dq
      +:+ ") Version 2.0.";
    EmptyString;
    "ROM: IOS-XE ROMMON";
    "BOOTLDR: Virtual XE ROM";
    EmptyString;
    "Router uptime is " +:+ uptime_of f;
    "Uptime for this control processor is " +:+ uptime_of f;
    "System returned to ROM by reload";
    "System image file is " +:+ dq +:+ "bootflash:packages.conf" +:+ dq;
    "Last reload reason: reload";
    EmptyString;
    "This product contains cryptographic features and is subject to United";
    "States and local country laws governing import, export, transfer and";
    "use. Delivery of Cisco cryptographic products does not imply";
    "third-party authority to import, export, distribute or use encryption.";
    EmptyString;
    "cisco CSR1000V (VXE) processor (revision VXE) with "
      +:+ str_int (f_processor_mem f) +:+ "K/" +:+ str_int (f_io_mem f)
      +:+ "K bytes of memory.";
    "Processor board ID " +:+ f_serial f;
    "Router operating mode: Autonomous";
    "4 Gigabit Ethernet interfaces";
    str_int (f_nvram f) +:+ "K bytes of non-volatile configuration memory.";
    str_int (f_physical_mem f) +:+ "K bytes of physical memory.";
    str_int (f_virtual_disk f)
      +:+ "K bytes of virtual hard disk at bootflash:.";
    EmptyString;
    "Configuration register is " +:+ f_config_reg f ].

(** The lines of a text that begin with [p]. *)
Definition lines_beginning (p s : string) : list string :=
  List.filter (String.prefix p) (lines s).

(** ** The uptime clause as the specification words it *)

(** A component: the value and its noun, singular exactly for 1. *)
Definition component (n : Z) (singular : string) : string :=
  str_int n +:+ " " +:+ (if n =? 1 then singular else singular +:+ "s").

(** Weeks and days are left out when they are 0; hours and minutes are
    always there. *)
Definition spec_uptime_components (weeks days hours minutes : Z)
  : list string :=
  (if weeks =? 0 then [] else [component weeks "week"]) ++
  (if days =? 0 then [] else [component days "day"]) ++
  [component hours "hour"; component minutes "minute"].

Definition spec_uptime (weeks days hours minutes : Z) : string :=
  join ", " (spec_uptime_components weeks days hours minutes).

(** The uptime text in two parts: weeks and days, then hours and minutes. *)
Definition uptime_head (weeks days : Z) : string :=
  (if 0 <? weeks
   then str_int weeks +:+ " week" +:+ RunCommand.plural weeks +:+ ", "
   else EmptyString) +:+
  (if 0 <? days
   then str_int days +:+ " day" +:+ RunCommand.plural days +:+ ", "
   else EmptyString).

Definition uptime_tail (hours minutes : Z) : string :=
  (str_int hours +:+ " hour") +:+ RunCommand.plural hours +:+ ", " +:+
  str_int minutes +:+ " minute" +:+ RunCommand.plural minutes.

(** Checks over every value the uptime fields can take. *)
Definition all_heads (p : Z -> Z -> Z -> bool) : bool :=
  forallb (fun w => forallb (fun d => forallb (fun h => p w d h)
    (seqZ 0 24)) (seqZ 0 7)) (seqZ 0 53).

Definition all_tails (p : Z -> Z -> bool) : bool :=
  forallb (fun h => forallb (fun m => p h m) (seqZ 0 60)) (seqZ 0 24).

(** A component that shows a value of zero weeks or zero days. *)
Definition is_zero_component (c : string) : bool :=
  String.eqb c "0 weeks" || String.eqb c "0 days".

(** A check over every value a field of the uptime can take. *)
Definition all_values (p : Z -> bool) : bool := forallb p (seqZ 0 60).

(** The suffixes [generate_random_version] chooses from. *)
Definition SUFFIXES : list string :=
  [EmptyString; EmptyString; EmptyString; "a"; "b"; "c"].

(** The world with other contents of the two output streams. *)
Definition set_stdout (s : string) (w : World) : World :=
  mkWorld (rand_src w) (rand_pos w) (clock w) (clock_pos w) (disk w)
    (fs w) s (stderr w) (prog w) (usage w).

Definition set_stderr (s : string) (w : World) : World :=
  mkWorld (rand_src w) (rand_pos w) (clock w) (clock_pos w) (disk w)
    (fs w) (stdout w) s (prog w) (usage w).

(** [f"{device_ip}_{command.replace(' ', '_')}_{timestamp}.txt"]: the name
    of the file [-save] writes, at the time [now]. *)
Definition save_filename (ip command : string) (now : datetime) : string :=
  ip +:+ "_" +:+ replace_char " " "_" command +:+ "_" +:+
  strftime_stamp now +:+ ".txt".

(** ** The listing of the commands as the specification words it *)

(** One command name per line and nothing else. *)
Definition names_only (names : list string) : string :=
  String.concat EmptyString (map (fun c => c +:+ nl) names).

(** The listing the script prints: a heading, then one bulleted line for
    each command. *)
Definition listing (names : list string) : string :=
  "Available commands:" +:+ nl +:+
  String.concat EmptyString (map (fun c => "  - " +:+ c +:+ nl) names).

(** ** Definitions for the further properties *)

(** The characters of a serial number: upper-case letters and digits. *)
Definition is_upper_alnum (c : ascii) : bool :=
  let n := nat_of_ascii c in
  ((65 <=? n)%nat && (n <=? 90)%nat) || ((48 <=? n)%nat && (n <=? 57)%nat).

(** The characters of ASCII. *)
Definition is_ascii (c : ascii) : bool := (nat_of_ascii c <? 128)%nat.

(** The characters of a text all satisfy [p]. *)
Fixpoint all_chars (p : ascii -> bool) (s : string) : bool :=
  match s with
  | EmptyString => true
  | String c s' => p c && all_chars p s'
  end.

(** A lower-case hexadecimal digit and its value. *)
Definition hex_digit_value (c : ascii) : option Z :=
  let n := nat_of_ascii c in
  if (48 <=? n)%nat && (n <=? 57)%nat then Some (Z.of_nat (n - 48))
  else if (97 <=? n)%nat && (n <=? 102)%nat then Some (Z.of_nat (n - 87))
  else None.

(** The number a text of lower-case hexadecimal digits writes, read from
    the left with [acc] before it; [None] for any other text. *)
Fixpoint hex_value_from (acc : Z) (s : string) : option Z :=
  match s with
  | EmptyString => Some acc
  | String c s' =>
      match hex_digit_value c with
      | Some d => hex_value_from (16 * acc + d) s'
      | None => None
      end
  end.

Definition hex_value (s : string) : option Z :=
  match s with
  | EmptyString => None
  | _ => hex_value_from 0 s
  end.

(** A check over every pair of bytes. *)
Definition all_byte_pairs (p : Z -> Z -> bool) : bool :=
  forallb (fun hi => forallb (fun lo => p hi lo) (seqZ 0 256)) (seqZ 0 256).

(** The group of four characters that [generate_random_mac] writes for
    two bytes is read back as their value. *)
Definition group_reads_back (hi lo : Z) : bool :=
  let g := format_04x (Z.shiftl hi 8 + lo) in
  (String.length g =? 4)%nat &&
  match hex_value g with
  | Some v => v =? 256 * hi + lo
  | None => false
  end.

(** The sizes a report shows lie in the lists they are chosen from. *)
Definition drawn_sizes (f : fields) : Prop :=
  In (f_processor_mem f) [1024000; 2048000; 4096000; 8192000] /\
  In (f_io_mem f) [3075; 6147; 12291] /\
  In (f_nvram f) [32768; 65536; 131072; 262144] /\
  In (f_physical_mem f) [3984776; 7969552; 15939104] /\
  In (f_virtual_disk f) [6139904; 12279808; 24559616].

(** A world whose clock reads 0001-01-10 08:30:00: no date lies 30 days
    before it. *)
Definition early_world : World :=
  mkWorld (fun _ => 0) 0 (fun _ => mkDatetime 10 8 30 0) 0
    (fun _ => WriteOk) ∅ EmptyString EmptyString "run_command.py"
    ("usage: run_command.py [-h]" +:+ nl).

(** ** Example worlds *)

(** A fresh world at 2026-11-04 16:43:07 (a Wednesday, ordinal 739924),
    with the draws [r] and the disk [d]: nothing drawn, printed or written
    yet. *)
Definition world_at (r : nat -> Z) (d : string -> write_answer) : World :=
  mkWorld r 0 (fun _ => mkDatetime 739924 16 43 7) 0 d ∅
    EmptyString EmptyString "run_command.py"
    ("usage: run_command.py [-h] [-device_ip DEVICE_IP] [-command COMMAND] [-save] [-list]" +:+ nl).

(** Every draw is 0 and the disk takes every file. *)
Definition quiet_world : World := world_at (fun _ => 0) (fun _ => WriteOk).

(** The fifth draw (the weeks) is 10. *)
Definition ten_weeks_world : World :=
  world_at (fun i => if (i =? 4)%nat then 10 else 0) (fun _ => WriteOk).

(** A disk that refuses every write. *)
Definition read_only_world : World :=
  world_at (fun _ => 0)
    (fun _ => WriteFails "[Errno 30] Read-only file system" None).

(** * Facts about the string functions *)

Section StringFacts.

Local Arguments String.append !_ _ /.

Lemma app_assoc_s (a b c : string) : (a +:+ b) +:+ c = a +:+ (b +:+ c).
Proof. induction a as [|x a IH]; simpl; [done | by rewrite IH]. Qed.

Lemma app_empty_r (a : string) : a +:+ EmptyString = a.
Proof. induction a as [|x a IH]; simpl; [done | by rewrite IH]. Qed.

Lemma has_char_app (c : ascii) (a b : string) :
  has_char c (a +:+ b) = has_char c a || has_char c b.
Proof.
  induction a as [|x a IH]; simpl; [done |].
  rewrite IH. by destruct (Ascii.eqb x c).
Qed.

Lemma uint_no_lf (u : Decimal.uint) :
  has_char LF (NilEmpty.string_of_uint u) = false.
Proof. induction u; simpl; auto. Qed.

Lemma str_int_no_lf (z : Z) : has_char LF (str_int z) = false.
Proof.
  unfold str_int, NilZero.string_of_int, NilZero.string_of_uint.
  destruct (Z.to_int z) as [u | u]; destruct u; simpl; auto using uint_no_lf.
Qed.

Lemma lines_nonempty (s : string) : lines s <> [].
Proof.
  induction s as [|c s IH]; simpl; [done |].
  destruct (Ascii.eqb c LF); [done |]. by destruct (lines s).
Qed.

(** A text without line feed is one line. *)
Lemma lines_no_lf (s : string) : has_char LF s = false -> lines s = [s].
Proof.
  induction s as [|c s IH]; simpl; [done |].
  intros H. apply orb_false_iff in H as [Hc Hs].
  rewrite Hc, (IH Hs). done.
Qed.

(** The first line ends at the first line feed. *)
Lemma lines_app_lf (a b : string) :
  has_char LF a = false -> lines (a +:+ nl +:+ b) = a :: lines b.
Proof.
  induction a as [|c a IH]; simpl; [done |].
  intros H. apply orb_false_iff in H as [Hc Ha].
  rewrite Hc. simpl in IH. rewrite (IH Ha). done.
Qed.

(** Joining lines with line feeds and splitting again gives the lines. *)
Lemma lines_join (ls : list string) :
  ls <> [] -> Forall (fun l => has_char LF l = false) ls ->
  lines (join nl ls) = ls.
Proof.
  intros Hne H. induction H as [|l ls Hl Hls IH]; [done |].
  destruct ls as [|l' ls'].
  - simpl. by apply lines_no_lf.
  - change (join nl (l :: l' :: ls')) with (l +:+ nl +:+ join nl (l' :: ls')).
    rewrite lines_app_lf by done. f_equal. by apply IH.
Qed.

End StringFacts.

(** * Running the effectful code *)

Section Running.

Lemma moved_0 (w : World) : moved 0 0 w = w.
Proof. by destruct w. Qed.

Lemma bind_eq {A B} (m : M A) (k : A -> M B) (w w1 : World) (a : A) :
  m w = (Ret a, w1) -> bind m k w = k a w1.
Proof. unfold bind. by intros ->. Qed.

Lemma bind_raise {A B} (m : M A) (k : A -> M B) (w w1 : World) (e : exn) :
  m w = (Raise e, w1) -> bind m k w = (Raise e, w1).
Proof. unfold bind. by intros ->. Qed.

Lemma draw_moved (n c : nat) (w : World) :
  draw (moved n c w) = (Ret (rand_src w (n + rand_pos w)%nat), moved (S n) c w).
Proof. reflexivity. Qed.

Lemma randint_moved (a b : Z) (n c : nat) (w : World) :
  a <= b ->
  randint a b (moved n c w)
  = (Ret (a + rand_src w (n + rand_pos w)%nat mod (b - a + 1)),
     moved (S n) c w).
Proof.
  intros H. unfold randint.
  destruct (Z.ltb_spec b a) as [Hlt | _]; [lia | reflexivity].
Qed.

Lemma choice_moved {A} (x : A) (l : list A) (n c : nat) (w : World) :
  choice (x :: l) (moved n c w)
  = (Ret (nth (Z.to_nat (rand_src w (n + rand_pos w)%nat
                         mod Z.of_nat (length (x :: l)))) (x :: l) x),
     moved (S n) c w).
Proof. reflexivity. Qed.

Lemma datetime_now_moved (n c : nat) (w : World) :
  datetime_now (moved n c w)
  = (Ret (clock w (c + clock_pos w)%nat), moved n (S c) w).
Proof. reflexivity. Qed.

Lemma sub_days_ok (d : datetime) (n : Z) (w : World) :
  0 < dt_ordinal d - n <= MAXORDINAL ->
  sub_days d n w
  = (Ret (mkDatetime (dt_ordinal d - n) (dt_hour d) (dt_minute d)
            (dt_second d)), w).
Proof.
  intros [H1 H2]. unfold sub_days.
  destruct (Z.ltb_spec 0 (dt_ordinal d - n)); [| lia].
  destruct (Z.leb_spec (dt_ordinal d - n) MAXORDINAL); [| lia].
  reflexivity.
Qed.

Lemma sub_days_fails (d : datetime) (n : Z) (w : World) :
  ~ 0 < dt_ordinal d - n <= MAXORDINAL ->
  sub_days d n w = (Raise (OverflowError "date value out of range"), w).
Proof.
  intros H. unfold sub_days.
  destruct (Z.ltb_spec 0 (dt_ordinal d - n));
    destruct (Z.leb_spec (dt_ordinal d - n) MAXORDINAL);
    try reflexivity.
  lia.
Qed.

(** What [random.randint] and [random.choice] return lies in the range and
    in the sequence. *)
Lemma randint_value_range (a b r : Z) :
  a <= b -> a <= a + r mod (b - a + 1) <= b.
Proof.
  intros H. pose proof (Z.mod_pos_bound r (b - a + 1)). lia.
Qed.

Lemma choice_value_In {A} (x : A) (l : list A) (i : nat) :
  In (nth i (x :: l) x) (x :: l).
Proof.
  destruct (Nat.lt_ge_cases i (length (x :: l))) as [Hlt | Hge].
  - by apply nth_In.
  - rewrite nth_overflow by done. by left.
Qed.

Lemma join_choices_moved (k : nat) (x : ascii) (l : list ascii)
    (n c : nat) (w : World) :
  RunCommand.join_choices k (x :: l) (moved n c w)
  = (Ret (picks k x l (fun i => rand_src w (i + rand_pos w)%nat) n),
     moved (k + n) c w).
Proof.
  revert n. induction k as [|k IH]; intros n; [reflexivity |].
  cbn [RunCommand.join_choices picks].
  erewrite bind_eq by apply choice_moved.
  erewrite bind_eq by apply IH.
  unfold ret. f_equal. unfold moved.
  cbn [rand_src rand_pos clock clock_pos disk fs stdout stderr prog usage].
  f_equal. lia.
Qed.

End Running.

(** One step of a run: the first computation of a [bind] returns. *)
Ltac run1 :=
  erewrite bind_eq;
  [| first [ apply randint_moved; lia
           | apply choice_moved
           | apply datetime_now_moved
           | apply join_choices_moved ] ].

(** * The fields of a report hold no line feed *)

Section NoLineFeed.

Local Arguments String.append !_ _ /.

Lemma nth_no_lf (i : nat) (l : list string) :
  Forall (fun s => has_char LF s = false) l ->
  has_char LF (nth i l EmptyString) = false.
Proof.
  intros H. revert i. induction H as [|s l Hs Hl IH]; intros [|i]; simpl; auto.
Qed.

Lemma pad2_no_lf (z : Z) : has_char LF (pad2 z) = false.
Proof.
  unfold pad2. destruct (z <? 10); [| apply str_int_no_lf].
  rewrite has_char_app, str_int_no_lf. reflexivity.
Qed.

Lemma strftime_compile_no_lf (d : datetime) :
  has_char LF (strftime_compile d) = false.
Proof.
  unfold strftime_compile. destruct (ord2ymd (dt_ordinal d)) as [[y m] dd].
  rewrite !has_char_app, !pad2_no_lf.
  rewrite !nth_no_lf by (repeat constructor).
  reflexivity.
Qed.

Lemma picks_no_lf (k : nat) (x : ascii) (l : list ascii) (r : nat -> Z)
    (i : nat) :
  Forall (fun c => Ascii.eqb c LF = false) (x :: l) ->
  has_char LF (picks k x l r i) = false.
Proof.
  intros H. revert i. induction k as [|k IH]; intros i; [done |].
  cbn [picks has_char]. rewrite IH, orb_false_r.
  rewrite Forall_forall in H. apply H.
  apply list_elem_of_In, choice_value_In.
Qed.

Lemma plural_no_lf (n : Z) : has_char LF (RunCommand.plural n) = false.
Proof. unfold RunCommand.plural. by destruct (n =? 1). Qed.

Lemma uptime_str_no_lf (weeks days hours minutes : Z) :
  has_char LF (RunCommand.uptime_str weeks days hours minutes) = false.
Proof.
  unfold RunCommand.uptime_str, RunCommand.uptime_parts, join.
  destruct (0 <? weeks), (0 <? days); cbn [app String.concat];
    rewrite !has_char_app, !str_int_no_lf, !plural_no_lf; reflexivity.
Qed.

End NoLineFeed.

(** * The report of generate_show_version *)

Section Report.

Local Arguments String.append !_ _ /.

(** [generate_random_version] always returns, after four draws: three
    numbers in their ranges and an entry of the list of suffixes. *)
Lemma generate_random_version_run (n c : nat) (w : World) :
  exists major minor patch : Z, exists i : nat,
    RunCommand.generate_random_version (moved n c w)
    = (Ret (str_int major +:+ "." +:+ str_int minor +:+ "." +:+
            str_int patch +:+
            nth i [EmptyString; EmptyString; EmptyString; "a"; "b"; "c"]
              EmptyString),
       moved (4 + n) c w) /\
    15 <= major <= 17 /\ 1 <= minor <= 12 /\ 1 <= patch <= 9 /\
    (i < 6)%nat.
Proof.
  unfold RunCommand.generate_random_version.
  exists (15 + rand_src w (n + rand_pos w)%nat mod (17 - 15 + 1)),
         (1 + rand_src w (S n + rand_pos w)%nat mod (12 - 1 + 1)),
         (1 + rand_src w (S (S n) + rand_pos w)%nat mod (9 - 1 + 1)),
         (Z.to_nat (rand_src w (S (S (S n)) + rand_pos w)%nat mod 6)).
  split; [do 4 run1; reflexivity |].
  refine (conj _ (conj _ (conj _ _)));
    try (apply randint_value_range; lia).
  pose proof (Z.mod_pos_bound (rand_src w (S (S (S n)) + rand_pos w)%nat) 6).
  lia.
Qed.

(** The run of [generate_show_version] up to the compilation date: 21
    draws, one reading of the clock, one more draw. *)
Ltac run_to_compile_date :=
  unfold RunCommand.generate_show_version, RunCommand.generate_random_version;
  erewrite bind_eq by (do 4 run1; reflexivity);
  unfold RunCommand.generate_random_uptime,
    RunCommand.generate_random_serial, RunCommand.generate_random_memory;
  erewrite bind_eq by (do 4 run1; reflexivity);
  cbv beta iota;
  erewrite bind_eq by apply join_choices_moved;
  erewrite bind_eq by (do 2 run1; reflexivity);
  cbv beta iota;
  do 2 run1.

(** When the compilation date is a date, [generate_show_version] returns
    the report of the fields of the world, after 26 draws and one reading
    of the clock, and changes nothing else. *)
Lemma generate_show_version_run (w : World) :
  compile_date_ok w ->
  RunCommand.generate_show_version w
  = (Ret (render (fields_of w)), moved 26 1 w).
Proof.
  intros Hdate.
  transitivity (RunCommand.generate_show_version (moved 0 0 w));
    [by rewrite moved_0 |].
  run_to_compile_date.
  erewrite bind_eq by (apply sub_days_ok; exact Hdate).
  do 4 run1.
  reflexivity.
Qed.

(** Otherwise it raises [OverflowError], after 22 draws. *)
Lemma generate_show_version_raises (w : World) :
  ~ compile_date_ok w ->
  RunCommand.generate_show_version w
  = (Raise (OverflowError "date value out of range"), moved 22 1 w).
Proof.
  intros Hdate.
  transitivity (RunCommand.generate_show_version (moved 0 0 w));
    [by rewrite moved_0 |].
  run_to_compile_date.
  erewrite bind_raise by (apply sub_days_fails; exact Hdate).
  reflexivity.
Qed.

(** So a text it returns is the report of the fields of the world. *)
Lemma generate_show_version_inv (w : World) (s : string) (w' : World) :
  RunCommand.generate_show_version w = (Ret s, w') ->
  s = render (fields_of w) /\ w' = moved 26 1 w.
Proof.
  intros Hrun.
  assert (Hdec : compile_date_ok w \/ ~ compile_date_ok w)
    by (unfold compile_date_ok; lia).
  destruct Hdec as [Hok | Hbad].
  - rewrite generate_show_version_run in Hrun by done.
    by injection Hrun as <- <-.
  - rewrite generate_show_version_raises in Hrun by done. discriminate Hrun.
Qed.

Lemma clock_ok_compile_date (w : World) : clock_ok w -> compile_date_ok w.
Proof.
  unfold clock_ok, compile_date_ok, span.
  pose proof (randint_value_range 30 1095 (raw w 21)).
  lia.
Qed.

(** It returns whenever the clock allows the compilation date. *)
Lemma generate_show_version_returns (w : World) :
  clock_ok w ->
  exists (s : string) (w' : World),
    RunCommand.generate_show_version w = (Ret s, w').
Proof.
  intros Hclock. eexists _, _.
  by apply generate_show_version_run, clock_ok_compile_date.
Qed.

Lemma span_range (a b r : Z) : a <= b -> a <= span a b r <= b.
Proof. apply randint_value_range. Qed.

Lemma pick_In {A} (x : A) (l : list A) (r : Z) : In (pick x l r) (x :: l).
Proof. apply choice_value_In. Qed.

(** The fields of every world are drawn fields. *)
Lemma fields_of_drawn (w : World) : drawn (fields_of w).
Proof.
  unfold drawn, fields_of.
  cbn [f_version f_compile_str f_serial f_weeks f_days f_hours f_minutes
       f_config_reg].
  refine (conj _ (conj _ (conj _ (conj _ (conj _ (conj _ (conj _ _)))))));
    try (apply span_range; lia).
  - rewrite !has_char_app, !str_int_no_lf.
    destruct (pick_In EmptyString [EmptyString; EmptyString; "a"; "b"; "c"]
                (raw w 3)) as [<- | H]; [reflexivity |].
    repeat (destruct H as [<- | H]; [reflexivity |]). destruct H.
  - apply strftime_compile_no_lf.
  - apply picks_no_lf. repeat constructor.
  - apply pick_In.
Qed.

Lemma render_join (f : fields) : render f = join nl (report_lines f).
Proof.
  unfold render, RunCommand.output, report_lines, join. cbn [String.concat].
  rewrite !app_assoc_s. reflexivity.
Qed.

(** The report splits into its 33 lines. *)
Lemma lines_render (f : fields) :
  drawn f -> lines (render f) = report_lines f.
Proof.
  intros (Hv & Hc & Hs & _ & _ & _ & _ & Hcfg).
  assert (Hr : has_char LF (f_config_reg f) = false)
    by (destruct Hcfg as [<- | [<- | [<- | []]]]; reflexivity).
  rewrite render_join. apply lines_join; [done |].
  unfold report_lines, uptime_of.
  repeat (apply Forall_cons; split);
    try apply Forall_nil;
    rewrite ?has_char_app, ?str_int_no_lf, ?uptime_str_no_lf, ?Hv, ?Hc, ?Hs,
      ?Hr;
    reflexivity.
Qed.

(** A number never begins with a letter. *)
Lemma prefix_str_int (c : ascii) (p : string) (z : Z) (rest : string) :
  (64 <? nat_of_ascii c)%nat = true ->
  String.prefix (String c p) (str_int z +:+ rest) = false.
Proof.
  intros Hc.
  assert (Hne : forall d : ascii,
             (nat_of_ascii d <? 64)%nat = true ->
             (if ascii_dec c d then String.prefix p EmptyString else false)
             = false).
  { intros d Hd. destruct (ascii_dec c d) as [-> | _]; [| done].
    rewrite Nat.ltb_lt in *. lia. }
  unfold str_int, NilZero.string_of_int, NilZero.string_of_uint.
  destruct (Z.to_int z) as [u | u]; destruct u; simpl;
    match goal with
    | |- (if ascii_dec c ?d then _ else false) = false =>
        destruct (ascii_dec c d) as [-> | _]; [discriminate Hc | reflexivity]
    end.
Qed.

End Report.

(** * Searching a text *)

Section Searching.

Local Arguments String.append !_ _ /.

Lemma length_app_s (a b : string) :
  String.length (a +:+ b) = (String.length a + String.length b)%nat.
Proof. induction a as [|x a IH]; simpl; [done | by rewrite IH]. Qed.

Lemma take_s_app_le (k : nat) (a b : string) :
  (k <= String.length a)%nat -> take_s k (a +:+ b) = take_s k a.
Proof.
  revert k. induction a as [|x a IH]; intros [|k] H; simpl in *;
    try done; try lia.
  rewrite IH by lia. done.
Qed.

(** Only the first [length sub] characters matter to [prefix]. *)
Lemma prefix_take (sub b : string) (k : nat) :
  (String.length sub <= k)%nat ->
  String.prefix sub (take_s k b) = String.prefix sub b.
Proof.
  revert sub k. induction b as [|y b IH]; intros [|x sub] [|k] H;
    simpl in *; try done; try lia.
  destruct (ascii_dec x y); [apply IH; lia | done].
Qed.

Lemma prefix_app_take (sub c b : string) (k : nat) :
  (String.length sub <= String.length c + k)%nat ->
  String.prefix sub (c +:+ take_s k b) = String.prefix sub (c +:+ b).
Proof.
  revert sub. induction c as [|y c IH]; intros sub H; simpl in *.
  - by apply prefix_take.
  - destruct sub as [|x sub]; [done |].
    destruct (ascii_dec x y); [apply IH; simpl in H; lia | done].
Qed.

Lemma contains_take (sub b : string) (k : nat) :
  contains sub (take_s k b) = true -> contains sub b = true.
Proof.
  revert k. induction b as [|y b IH]; intros k H.
  - by destruct k.
  - destruct k as [|k].
    + simpl in H. rewrite orb_false_r in H.
      destruct sub; [done | discriminate].
    + cbn [take_s contains] in H. cbn [contains].
      apply orb_true_iff in H as [H | H]; apply orb_true_iff.
      * left. destruct sub as [|x sub]; [done |].
        simpl in *. destruct (ascii_dec x y); [| done].
        destruct (Nat.le_gt_cases (String.length sub) k) as [Hle | Hgt].
        -- by rewrite prefix_take in H.
        -- exfalso. clear -H Hgt. revert sub k H Hgt.
           induction b as [|z b IHb]; intros [|x sub] [|k] H Hgt;
             simpl in *; try done; try lia.
           destruct (ascii_dec x z); [| done].
           apply (IHb sub k); [done | lia].
      * right. by apply (IH k).
Qed.

(** An occurrence of [sub] in [a +:+ b] lies in [b], or starts in [a] and
    reaches less than [length sub] characters into [b]. *)
Lemma contains_app (sub a b : string) :
  contains sub (a +:+ b)
  = contains sub (a +:+ take_s (String.length sub - 1) b) || contains sub b.
Proof.
  induction a as [|x a IH].
  - simpl. destruct (contains sub b) eqn:Hb; [by rewrite orb_true_r |].
    rewrite orb_false_r.
    destruct (contains sub (take_s (String.length sub - 1) b)) eqn:Ht;
      [| done].
    apply contains_take in Ht. congruence.
  - change (String x a +:+ b) with (String x (a +:+ b)).
    change (String x a +:+ take_s (String.length sub - 1) b)
      with (String x (a +:+ take_s (String.length sub - 1) b)).
    cbn [contains]. rewrite IH.
    change (String x (a +:+ take_s (String.length sub - 1) b))
      with (String x a +:+ take_s (String.length sub - 1) b).
    rewrite prefix_app_take by (simpl; lia).
    change (String x a +:+ b) with (String x (a +:+ b)).
    by rewrite !orb_assoc.
Qed.

End Searching.

(** * The lines of the report *)

Section ReportLines.

Local Arguments String.append !_ _ /.

Lemma filter_skip {A} (p : A -> bool) (x : A) (l : list A) :
  p x = false -> List.filter p (x :: l) = List.filter p l.
Proof. simpl. by intros ->. Qed.

Lemma filter_keep {A} (p : A -> bool) (x : A) (l : list A) :
  p x = true -> List.filter p (x :: l) = x :: List.filter p l.
Proof. simpl. by intros ->. Qed.

(** Goes through a filtered list of lines, deciding each line in turn. *)
Ltac sift :=
  repeat first
    [ rewrite filter_skip
        by first [reflexivity | apply prefix_str_int; reflexivity]
    | rewrite filter_keep by reflexivity ].

Lemma config_lines (f : fields) :
  List.filter (String.prefix "Configuration register is") (report_lines f)
  = ["Configuration register is " +:+ f_config_reg f].
Proof. unfold report_lines. sift. reflexivity. Qed.

Lemma router_uptime_lines (f : fields) :
  List.filter (String.prefix "Router uptime is") (report_lines f)
  = ["Router uptime is " +:+ uptime_of f].
Proof. unfold report_lines. sift. reflexivity. Qed.

Lemma processor_uptime_lines (f : fields) :
  List.filter (String.prefix "Uptime for this control processor is")
    (report_lines f)
  = ["Uptime for this control processor is " +:+ uptime_of f].
Proof. unfold report_lines. sift. reflexivity. Qed.

Lemma world_at_clock_ok (r : nat -> Z) (d : string -> write_answer) :
  clock_ok (world_at r d).
Proof. unfold clock_ok, MAXORDINAL. simpl. lia. Qed.

Lemma quiet_world_clock_ok : clock_ok quiet_world.
Proof. apply world_at_clock_ok. Qed.

(** C5. Every text [generate_show_version] returns has exactly one line
    that begins with "Configuration register is", and the value on that
    line is one of '0x2102', '0x2142' and '0x2100'. The function does
    return a text whenever the clock allows the compilation date. *)
Theorem show_version_config_register (w : World) :
  (clock_ok w ->
   exists (s : string) (w' : World),
     RunCommand.generate_show_version w = (Ret s, w')) /\
  (forall (s : string) (w' : World),
     RunCommand.generate_show_version w = (Ret s, w') ->
     exists v : string,
       lines_beginning "Configuration register is" s
       = ["Configuration register is " +:+ v] /\
       In v ["0x2102"; "0x2142"; "0x2100"]).
Proof.
  split; [apply generate_show_version_returns |].
  intros s w' Hrun.
  apply generate_show_version_inv in Hrun as [-> _].
  pose proof (fields_of_drawn w) as Hd.
  exists (f_config_reg (fields_of w)). split.
  - unfold lines_beginning. rewrite lines_render by done. apply config_lines.
  - apply Hd.
Qed.

Lemma show_version_config_register_witness :
  exists (s : string) (w' : World) (v : string),
    RunCommand.generate_show_version quiet_world = (Ret s, w') /\
    lines_beginning "Configuration register is" s
    = ["Configuration register is " +:+ v] /\
    In v ["0x2102"; "0x2142"; "0x2100"].
Proof.
  destruct (show_version_config_register quiet_world) as [Hret Hall].
  destruct (Hret quiet_world_clock_ok) as (s & w' & Hrun).
  destruct (Hall s w' Hrun) as (v & Hv).
  exists s, w', v. exact (conj Hrun Hv).
Defined.

(** C10. In every text [generate_show_version] returns, the line "Router
    uptime is" and the line "Uptime for this control processor is" (lines
    14 and 15, the only ones that begin so) carry the same uptime text.
    The function does return a text whenever the clock allows the
    compilation date. *)
Theorem show_version_same_uptime (w : World) :
  (clock_ok w ->
   exists (s : string) (w' : World),
     RunCommand.generate_show_version w = (Ret s, w')) /\
  (forall (s : string) (w' : World),
     RunCommand.generate_show_version w = (Ret s, w') ->
     exists u : string,
       lines s !! 13%nat = Some ("Router uptime is " +:+ u) /\
       lines s !! 14%nat
       = Some ("Uptime for this control processor is " +:+ u) /\
       lines_beginning "Router uptime is" s = ["Router uptime is " +:+ u] /\
       lines_beginning "Uptime for this control processor is" s
       = ["Uptime for this control processor is " +:+ u]).
Proof.
  split; [apply generate_show_version_returns |].
  intros s w' Hrun.
  apply generate_show_version_inv in Hrun as [-> _].
  pose proof (fields_of_drawn w) as Hd.
  exists (uptime_of (fields_of w)).
  unfold lines_beginning. rewrite lines_render by done.
  refine (conj _ (conj _ (conj _ _))).
  - reflexivity.
  - reflexivity.
  - apply router_uptime_lines.
  - apply processor_uptime_lines.
Qed.

Lemma show_version_same_uptime_witness :
  exists (s : string) (w' : World) (u : string),
    RunCommand.generate_show_version quiet_world = (Ret s, w') /\
    lines s !! 13%nat = Some ("Router uptime is " +:+ u) /\
    lines s !! 14%nat = Some ("Uptime for this control processor is " +:+ u) /\
    lines_beginning "Router uptime is" s = ["Router uptime is " +:+ u] /\
    lines_beginning "Uptime for this control processor is" s
    = ["Uptime for this control processor is " +:+ u].
Proof.
  destruct (show_version_same_uptime quiet_world) as [Hret Hall].
  destruct (Hret quiet_world_clock_ok) as (s & w' & Hrun).
  destruct (Hall s w' Hrun) as (u & Hu).
  exists s, w', u. exact (conj Hrun Hu).
Defined.

End ReportLines.

(** * The uptime clause *)

Section Uptime.

Local Arguments String.append !_ _ /.

Lemma uptime_str_split (weeks days hours minutes : Z) :
  RunCommand.uptime_str weeks days hours minutes
  = uptime_head weeks days +:+ uptime_tail hours minutes.
Proof.
  unfold RunCommand.uptime_str, RunCommand.uptime_parts, join, uptime_head,
    uptime_tail.
  destruct (0 <? weeks), (0 <? days); cbn [app String.concat];
    rewrite ?app_assoc_s; reflexivity.
Qed.

Lemma component_eq (n : Z) (singular : string) :
  str_int n +:+ (" " +:+ singular) +:+ RunCommand.plural n
  = component n singular.
Proof.
  unfold component, RunCommand.plural.
  destruct (n =? 1); cbn [negb]; rewrite <- ?app_assoc_s, ?app_empty_r;
    rewrite ?app_assoc_s; reflexivity.
Qed.

(** The uptime text the code builds is the clause of the specification. *)
Lemma uptime_str_spec (weeks days hours minutes : Z) :
  0 <= weeks -> 0 <= days ->
  RunCommand.uptime_str weeks days hours minutes
  = spec_uptime weeks days hours minutes.
Proof.
  intros Hw Hd.
  unfold RunCommand.uptime_str, RunCommand.uptime_parts, spec_uptime,
    spec_uptime_components.
  rewrite <- !component_eq.
  destruct (Z.ltb_spec 0 weeks), (Z.eqb_spec weeks 0); try lia;
    destruct (Z.ltb_spec 0 days), (Z.eqb_spec days 0); try lia;
    reflexivity.
Qed.

Lemma str_int_length (z : Z) : (1 <= String.length (str_int z))%nat.
Proof.
  unfold str_int, NilZero.string_of_int, NilZero.string_of_uint.
  destruct (Z.to_int z) as [u | u]; destruct u; simpl; lia.
Qed.

Lemma take_tail (k : nat) (hours minutes : Z) :
  (k <= 6)%nat ->
  take_s k (uptime_tail hours minutes)
  = take_s k (str_int hours +:+ " hour").
Proof.
  intros Hk. unfold uptime_tail. apply take_s_app_le.
  rewrite length_app_s. pose proof (str_int_length hours). simpl. lia.
Qed.

Lemma in_seqZ (x n : Z) : 0 <= x < n -> In x (seqZ 0 n).
Proof. intros H. apply list_elem_of_In, elem_of_seqZ. lia. Qed.

Lemma all_heads_spec (p : Z -> Z -> Z -> bool) (w d h : Z) :
  all_heads p = true ->
  0 <= w <= 52 -> 0 <= d <= 6 -> 0 <= h <= 23 -> p w d h = true.
Proof.
  unfold all_heads. intros H Hw Hd Hh.
  apply (proj1 (forallb_forall _ _)) with (x := w) in H;
    [| apply in_seqZ; lia].
  apply (proj1 (forallb_forall _ _)) with (x := d) in H;
    [| apply in_seqZ; lia].
  apply (proj1 (forallb_forall _ _)) with (x := h) in H;
    [| apply in_seqZ; lia].
  exact H.
Qed.

Lemma all_tails_spec (p : Z -> Z -> bool) (h m : Z) :
  all_tails p = true -> 0 <= h <= 23 -> 0 <= m <= 59 -> p h m = true.
Proof.
  unfold all_tails. intros H Hh Hm.
  apply (proj1 (forallb_forall _ _)) with (x := h) in H;
    [| apply in_seqZ; lia].
  apply (proj1 (forallb_forall _ _)) with (x := m) in H;
    [| apply in_seqZ; lia].
  exact H.
Qed.

(** The four checks, each by running over the values. *)
Lemma heads_no_0_days :
  all_heads (fun w d h =>
    negb (contains "0 days"
            (uptime_head w d +:+ take_s 5 (str_int h +:+ " hour")))) = true.
Proof. vm_compute. reflexivity. Qed.

Lemma tails_no_0_days :
  all_tails (fun h m => negb (contains "0 days" (uptime_tail h m))) = true.
Proof. vm_compute. reflexivity. Qed.

Lemma heads_0_weeks :
  all_heads (fun w d h =>
    Bool.eqb
      (contains "0 weeks"
         (uptime_head w d +:+ take_s 6 (str_int h +:+ " hour")))
      ((0 <? w) && (w mod 10 =? 0))) = true.
Proof. vm_compute. reflexivity. Qed.

Lemma tails_no_0_weeks :
  all_tails (fun h m => negb (contains "0 weeks" (uptime_tail h m))) = true.
Proof. vm_compute. reflexivity. Qed.

(** The text "0 days" is never in the uptime text. *)
Lemma uptime_str_no_0_days (weeks days hours minutes : Z) :
  0 <= weeks <= 52 -> 0 <= days <= 6 -> 0 <= hours <= 23 ->
  0 <= minutes <= 59 ->
  contains "0 days" (RunCommand.uptime_str weeks days hours minutes) = false.
Proof.
  intros Hw Hd Hh Hm.
  rewrite uptime_str_split, contains_app.
  change (String.length "0 days" - 1)%nat with 5%nat.
  rewrite take_tail by lia.
  pose proof (all_heads_spec _ weeks days hours heads_no_0_days Hw Hd Hh) as H1.
  pose proof (all_tails_spec _ hours minutes tails_no_0_days Hh Hm) as H2.
  cbv beta in H1, H2.
  apply negb_true_iff in H1, H2. rewrite H1, H2. reflexivity.
Qed.

(** The text "0 weeks" is in the uptime text exactly when the weeks are a
    multiple of ten. *)
Lemma uptime_str_0_weeks (weeks days hours minutes : Z) :
  0 <= weeks <= 52 -> 0 <= days <= 6 -> 0 <= hours <= 23 ->
  0 <= minutes <= 59 ->
  contains "0 weeks" (RunCommand.uptime_str weeks days hours minutes)
  = (0 <? weeks) && (weeks mod 10 =? 0).
Proof.
  intros Hw Hd Hh Hm.
  rewrite uptime_str_split, contains_app.
  change (String.length "0 weeks" - 1)%nat with 6%nat.
  rewrite take_tail by lia.
  pose proof (all_heads_spec _ weeks days hours heads_0_weeks Hw Hd Hh) as H1.
  pose proof (all_tails_spec _ hours minutes tails_no_0_weeks Hh Hm) as H2.
  cbv beta in H1, H2.
  apply negb_true_iff in H2. rewrite H2, orb_false_r.
  by apply Bool.eqb_prop in H1.
Qed.

Lemma components_checked :
  all_values (fun n =>
    negb (is_zero_component (component n "hour")) &&
    negb (is_zero_component (component n "minute")) &&
    ((n =? 0) ||
     negb (is_zero_component (component n "week")) &&
     negb (is_zero_component (component n "day")))) = true.
Proof. vm_compute. reflexivity. Qed.

(** No component of the clause is "0 weeks" or "0 days". *)
Lemma spec_components_not_zero (weeks days hours minutes : Z) (c : string) :
  0 <= weeks <= 52 -> 0 <= days <= 6 -> 0 <= hours <= 23 ->
  0 <= minutes <= 59 ->
  In c (spec_uptime_components weeks days hours minutes) ->
  is_zero_component c = false.
Proof.
  intros Hw Hd Hh Hm.
  assert (Hall : forall n, 0 <= n <= 59 ->
            is_zero_component (component n "hour") = false /\
            is_zero_component (component n "minute") = false /\
            (n <> 0 ->
             is_zero_component (component n "week") = false /\
             is_zero_component (component n "day") = false)).
  { intros n Hn. pose proof components_checked as H. unfold all_values in H.
    apply (proj1 (forallb_forall _ _)) with (x := n) in H;
      [| apply in_seqZ; lia].
    apply andb_true_iff in H as [H H3]. apply andb_true_iff in H as [H1 H2].
    apply negb_true_iff in H1, H2. refine (conj H1 (conj H2 _)).
    intros Hne. destruct (Z.eqb_spec n 0); [done |].
    cbn [orb] in H3. apply andb_true_iff in H3 as [H3 H4].
    by apply negb_true_iff in H3, H4. }
  unfold spec_uptime_components. rewrite !in_app_iff.
  intros [H | [H | H]].
  - destruct (Z.eqb_spec weeks 0); [destruct H |].
    destruct H as [<- | []]. apply Hall; [lia | done].
  - destruct (Z.eqb_spec days 0); [destruct H |].
    destruct H as [<- | []]. apply Hall; [lia | done].
  - destruct H as [<- | [<- | []]]; apply Hall; lia.
Qed.

(** The uptime of a report: after the four draws of the version,
    [generate_random_uptime] makes weeks, days, hours and minutes of the
    next four draws. *)
Lemma generate_random_uptime_run (w : World) :
  RunCommand.generate_random_uptime (moved 4 0 w)
  = (Ret (span 0 52 (raw w 4), span 0 6 (raw w 5),
          span 0 23 (raw w 6), span 0 59 (raw w 7)),
     moved 8 0 w).
Proof.
  unfold RunCommand.generate_random_uptime.
  do 4 run1. reflexivity.
Qed.

Lemma generate_random_version_first (w : World) :
  RunCommand.generate_random_version w
  = (Ret (f_version (fields_of w)), moved 4 0 w).
Proof.
  transitivity (RunCommand.generate_random_version (moved 0 0 w));
    [by rewrite moved_0 |].
  unfold RunCommand.generate_random_version.
  do 4 run1. reflexivity.
Qed.

(** C4. The weeks, days, hours and minutes of a report are the ones
    [generate_random_uptime] returns when it is called after
    [generate_random_version]: the fifth to eighth draws, brought into
    0..52, 0..6, 0..23 and 0..59. In every text [generate_show_version]
    returns, the uptime clause, on both lines that show it, is the
    comma-joined list of the components of these four values: weeks left
    out when 0, days left out when 0, hours and minutes always there, each
    noun singular exactly for the value 1. No component of the clause is
    "0 weeks" or "0 days". The function does return a text whenever the
    clock allows the compilation date. *)
Theorem show_version_uptime_clause (w : World) :
  let weeks := span 0 52 (raw w 4) in
  let days := span 0 6 (raw w 5) in
  let hours := span 0 23 (raw w 6) in
  let minutes := span 0 59 (raw w 7) in
  (exists version : string,
     RunCommand.generate_random_version w = (Ret version, moved 4 0 w)) /\
  RunCommand.generate_random_uptime (moved 4 0 w)
  = (Ret (weeks, days, hours, minutes), moved 8 0 w) /\
  (0 <= weeks <= 52 /\ 0 <= days <= 6 /\
   0 <= hours <= 23 /\ 0 <= minutes <= 59) /\
  (clock_ok w ->
   exists (s : string) (w' : World),
     RunCommand.generate_show_version w = (Ret s, w')) /\
  (forall (s : string) (w' : World),
     RunCommand.generate_show_version w = (Ret s, w') ->
     lines_beginning "Router uptime is" s
     = ["Router uptime is " +:+ spec_uptime weeks days hours minutes] /\
     lines_beginning "Uptime for this control processor is" s
     = ["Uptime for this control processor is "
        +:+ spec_uptime weeks days hours minutes] /\
     forall c, In c (spec_uptime_components weeks days hours minutes) ->
               is_zero_component c = false).
Proof.
  intros weeks days hours minutes.
  pose proof (fields_of_drawn w) as Hd.
  pose proof Hd as (_ & _ & _ & Hw & Hdy & Hh & Hm & _).
  change (f_weeks (fields_of w)) with weeks in Hw.
  change (f_days (fields_of w)) with days in Hdy.
  change (f_hours (fields_of w)) with hours in Hh.
  change (f_minutes (fields_of w)) with minutes in Hm.
  refine (conj _ (conj _ (conj _ (conj _ _)))).
  - eexists. apply generate_random_version_first.
  - apply generate_random_uptime_run.
  - exact (conj Hw (conj Hdy (conj Hh Hm))).
  - apply generate_show_version_returns.
  - intros s w' Hrun.
    apply generate_show_version_inv in Hrun as [-> _].
    unfold lines_beginning. rewrite lines_render by done.
    rewrite <- uptime_str_spec by lia.
    refine (conj _ (conj _ _)).
    + apply router_uptime_lines.
    + apply processor_uptime_lines.
    + intros c. by apply spec_components_not_zero.
Qed.

Lemma show_version_uptime_clause_witness :
  exists (s : string) (w' : World),
    RunCommand.generate_random_uptime (moved 4 0 ten_weeks_world)
    = (Ret (10, 0, 0, 0), moved 8 0 ten_weeks_world) /\
    RunCommand.generate_show_version ten_weeks_world = (Ret s, w') /\
    lines_beginning "Router uptime is" s
    = ["Router uptime is 10 weeks, 0 hours, 0 minutes"] /\
    lines_beginning "Uptime for this control processor is" s
    = ["Uptime for this control processor is 10 weeks, 0 hours, 0 minutes"] /\
    forall c, In c ["10 weeks"; "0 hours"; "0 minutes"] ->
              is_zero_component c = false.
Proof.
  destruct (show_version_uptime_clause ten_weeks_world)
    as (_ & Hup & _ & Hret & Hall).
  destruct (Hret (world_at_clock_ok _ _)) as (s & w' & Hrun).
  exists s, w'. exact (conj Hup (conj Hrun (Hall s w' Hrun))).
Defined.

End Uptime.

(** * The version text *)

Section Version.

(** C7. Every text [generate_random_version] returns is
    major.minor.patch and a suffix, with major in 15..17, minor in 1..12,
    patch in 1..9, and the suffix the entry of a list of six, three of
    them empty and the others 'a', 'b' and 'c', at the index the draw
    gives (the draw modulo 6): when there is a suffix it is 'a', 'b' or
    'c'. *)
Theorem random_version_form (w : World) :
  exists (major minor patch : Z) (suffix : string) (w' : World),
    RunCommand.generate_random_version w
    = (Ret (str_int major +:+ "." +:+ str_int minor +:+ "." +:+
            str_int patch +:+ suffix), w') /\
    15 <= major <= 17 /\ 1 <= minor <= 12 /\ 1 <= patch <= 9 /\
    SUFFIXES !! Z.to_nat (raw w 3 mod 6) = Some suffix /\
    length SUFFIXES = 6%nat /\
    count_occ String.string_dec SUFFIXES EmptyString = 3%nat /\
    (suffix = EmptyString \/ suffix = "a" \/ suffix = "b" \/ suffix = "c").
Proof.
  pose proof (Z.mod_pos_bound (raw w 3) 6 ltac:(lia)) as Hr.
  assert (Hlt : (Z.to_nat (raw w 3 mod 6) < 6)%nat) by lia.
  exists (span 15 17 (raw w 0)), (span 1 12 (raw w 1)),
    (span 1 9 (raw w 2)),
    (nth (Z.to_nat (raw w 3 mod 6)) SUFFIXES EmptyString), (moved 4 0 w).
  split.
  { transitivity (RunCommand.generate_random_version (moved 0 0 w));
      [by rewrite moved_0 |].
    unfold RunCommand.generate_random_version.
    do 4 run1. reflexivity. }
  refine (conj _ (conj _ (conj _ (conj _ (conj _ (conj _ _))))));
    try (apply span_range; lia); try reflexivity.
  - revert Hlt. generalize (Z.to_nat (raw w 3 mod 6)). intros k Hk.
    do 6 (destruct k as [|k]; [reflexivity |]). lia.
  - revert Hlt. generalize (Z.to_nat (raw w 3 mod 6)). intros k Hk.
    do 6 (destruct k as [|k]; [cbn; tauto |]). lia.
Qed.

(** X15. The ranges of [generate_random_version] are all used: every
    major in 15..17, minor in 1..12, patch in 1..9 and entry of the list
    of suffixes make a version that the function returns for some draws. *)
Lemma random_version_reachable (major minor patch : Z) (i : nat) :
  15 <= major <= 17 -> 1 <= minor <= 12 -> 1 <= patch <= 9 -> (i < 6)%nat ->
  exists w w' : World,
    RunCommand.generate_random_version w
    = (Ret (str_int major +:+ "." +:+ str_int minor +:+ "." +:+
            str_int patch +:+ nth i SUFFIXES EmptyString), w').
Proof.
  intros Hmaj Hmin Hpat Hi.
  pose (r := fun k : nat =>
               match k with
               | 0%nat => major - 15
               | 1%nat => minor - 1
               | 2%nat => patch - 1
               | _ => Z.of_nat i
               end).
  exists (moved 0 0 (world_at r (fun _ => WriteOk))). eexists.
  unfold RunCommand.generate_random_version.
  do 4 run1. unfold ret. do 2 f_equal.
  cbn [rand_src rand_pos world_at Nat.add r].
  change (Z.of_nat (length _)) with 6.
  rewrite !Z.mod_small by lia.
  rewrite Nat2Z.id.
  replace (15 + (major - 15)) with major by lia.
  replace (1 + (minor - 1)) with minor by lia.
  replace (1 + (patch - 1)) with patch by lia.
  reflexivity.
Qed.

End Version.

(** * The registry of commands *)

Section Registry.

Lemma execute_known :
  RunCommand.execute_mock_command "show version"
  = RunCommand.generate_show_version.
Proof. reflexivity. Qed.

Lemma execute_unknown (command : string) (w : World) :
  command <> "show version" ->
  RunCommand.execute_mock_command command w
  = (Ret RunCommand.INVALID_INPUT, w).
Proof.
  intros Hne.
  unfold RunCommand.execute_mock_command, RunCommand.MOCK_RESPONSES.
  cbn [RunCommand.lookup_command].
  by destruct (String.eqb_spec command "show version").
Qed.



(** With a clock that allows the compilation date, every command gives a
    text. *)
Lemma execute_mock_command_returns (command : string) (w : World) :
  clock_ok w ->
  exists (out : string) (w1 : World),
    RunCommand.execute_mock_command command w = (Ret out, w1).
Proof.
  intros Hclock.
  destruct (String.eqb_spec command "show version") as [-> | Hne].
  - rewrite execute_known. by apply generate_show_version_returns.
  - eexists _, _. by apply execute_unknown.
Qed.

(** A command that gives a text only uses up draws and readings of the
    clock. *)
Lemma execute_mock_command_inv (command : string) (w : World)
    (out : string) (w1 : World) :
  RunCommand.execute_mock_command command w = (Ret out, w1) ->
  exists n c : nat, w1 = moved n c w.
Proof.
  destruct (String.eqb_spec command "show version") as [-> | Hne].
  - rewrite execute_known. intros H.
    apply generate_show_version_inv in H as [_ ->]. by eexists _, _.
  - rewrite execute_unknown by done. intros H. injection H as _ <-.
    exists 0%nat, 0%nat. by rewrite moved_0.
Qed.

End Registry.

(** * The three scripts *)

Section Scripts.

Lemma print_run (s : string) (w : World) :
  print s w = (Ret tt, set_stdout (stdout w +:+ s +:+ nl) w).
Proof. reflexivity. Qed.

Lemma eprint_run (s : string) (w : World) :
  eprint s w = (Ret tt, set_stderr (stderr w +:+ s +:+ nl) w).
Proof. reflexivity. Qed.

Lemma set_stdout_id (w : World) : set_stdout (stdout w) w = w.
Proof. by destruct w. Qed.

(** The loop over the commands prints one bulleted line for each. *)
Lemma print_commands_run (commands : list string) (w : World) :
  RunCommand.print_commands commands w
  = (Ret tt,
     set_stdout
       (stdout w +:+
        String.concat EmptyString
          (map (fun c => "  - " +:+ c +:+ nl) commands)) w).
Proof.
  revert w. induction commands as [|c cs IH]; intros w.
  - cbn [RunCommand.print_commands map String.concat].
    by rewrite app_empty_r, set_stdout_id.
  - cbn [RunCommand.print_commands].
    erewrite bind_eq by apply print_run.
    rewrite IH. unfold ret. f_equal.
    unfold set_stdout.
    cbn [rand_src rand_pos clock clock_pos disk fs stdout stderr prog usage].
    f_equal.
    destruct cs as [|c' cs']; cbn [map String.concat];
      rewrite ?app_empty_r, ?app_assoc_s; reflexivity.
Qed.

(** C2. Whenever [-list] is given, whatever the other arguments, the
    script prints the heading "Available commands:" and then one line
    "  - name" for each registered command name, in the order of the
    registry, and nothing else; it writes nothing on the error stream and
    no file, and exits with status 0. *)
Theorem list_prints_the_listing (ip : option string) (command : string)
    (save : bool) (w : World) :
  let '(r, w') :=
    RunCommand.script (RunCommand.mkNamespace ip command save true) w in
  exit_status r = 0 /\
  stdout w' = stdout w +:+ listing (RunCommand.keys RunCommand.MOCK_RESPONSES)
  /\
  listing (RunCommand.keys RunCommand.MOCK_RESPONSES)
  = "Available commands:" +:+ nl +:+ "  - show version" +:+ nl /\
  stderr w' = stderr w /\ fs w' = fs w.
Proof.
  unfold RunCommand.script, try_except, RunCommand.main.
  cbn [RunCommand.list_].
  erewrite bind_raise.
  2:{ erewrite bind_eq by apply print_run.
      erewrite bind_eq by apply print_commands_run.
      reflexivity. }
  cbn [is_Exception exit_status].
  unfold set_stdout.
  cbn [rand_src rand_pos clock clock_pos disk fs stdout stderr prog usage].
  refine (conj _ (conj _ (conj _ (conj _ _)))); try reflexivity.
  unfold listing. by rewrite !app_assoc_s.
Qed.

(** C2, as the claim words it, fails: with [-list] alone the script does
    not print just the command names, one on each line. *)
Lemma list_prints_more_than_names :
  let printed :=
    stdout
      (RunCommand.script
         (RunCommand.mkNamespace None "show version" false true)
         quiet_world).2 in
  printed = "Available commands:" +:+ nl +:+ "  - show version" +:+ nl /\
  names_only (RunCommand.keys RunCommand.MOCK_RESPONSES)
  = "show version" +:+ nl /\
  printed <> names_only (RunCommand.keys RunCommand.MOCK_RESPONSES).
Proof.
  cbv zeta. split; [reflexivity |]. split; [reflexivity |].
  vm_compute. discriminate.
Qed.

(** C8. When [-device_ip] is absent and [-list] is not given, whatever the
    command and the [-save] flag, the script exits with status 2, prints
    nothing on standard output and writes no file; the usage text and the
    error message go to the error stream. *)
Theorem missing_device_ip_fails (command : string) (save : bool) (w : World) :
  let '(r, w') :=
    RunCommand.script (RunCommand.mkNamespace None command save false) w in
  exit_status r = 2 /\ exit_status r <> 0 /\
  stdout w' = stdout w /\ fs w' = fs w /\
  stderr w'
  = stderr w +:+ usage w +:+ prog w +:+
    ": error: -device_ip is required (unless using -list)" +:+ nl.
Proof.
  unfold RunCommand.script, try_except, RunCommand.main.
  cbn [RunCommand.list_ RunCommand.device_ip RunCommand.falsy].
  erewrite bind_eq by reflexivity.
  erewrite bind_raise by reflexivity.
  cbn [is_Exception exit_status].
  cbn [rand_src rand_pos clock clock_pos disk fs stdout stderr prog usage].
  repeat apply conj; done.
Qed.

(** C9. For every text given to [--echo], the echo script prints exactly
    that text (and the line feed [print] ends a line with) on standard
    output, nothing on the error stream, and ends with status 0. *)
Theorem echo_prints_the_argument (text : string) (w : World) :
  let '(r, w') := PythonDemo.main (PythonDemo.mkNamespace text) w in
  exit_status r = 0 /\
  stdout w' = stdout w +:+ text +:+ nl /\
  stderr w' = stderr w.
Proof. repeat apply conj; reflexivity. Qed.

End Scripts.

(** * Saving the output *)

Section Saving.

(** C6. With [-save] and a device address, once the command has given
    its output the script prints it and ends with status 0 whatever the
    file system answers. When the write succeeds, the file holds exactly
    the text that was printed (the argument of [print], which ends the
    line after it); when the write fails, the output is printed all the
    same and the failure, with the message of the exception, goes to the
    error stream. *)
Theorem save_writes_the_output (ip command : string) (w : World)
    (out : string) (w1 : World) :
  ip <> EmptyString ->
  RunCommand.execute_mock_command command w = (Ret out, w1) ->
  let filename := save_filename ip command (clock w1 (clock_pos w1)) in
  let '(r, w') :=
    RunCommand.script
      (RunCommand.mkNamespace (Some ip) command true false) w in
  exit_status r = 0 /\
  stdout w' = stdout w +:+ out +:+ nl /\
  match disk w filename with
  | WriteOk =>
      fs w' !! filename = Some out /\
      stderr w'
      = stderr w +:+ (nl +:+ "Output saved to " +:+ filename) +:+ nl
  | WriteFails msg _ =>
      stderr w'
      = stderr w +:+ (nl +:+ "ERROR: Failed to save file: " +:+ msg)
        +:+ nl
  end.
Proof.
  intros Hip Hexec.
  destruct (execute_mock_command_inv _ _ _ _ Hexec) as (n & c & ->).
  cbv zeta.
  unfold RunCommand.script, RunCommand.main.
  cbn [RunCommand.list_ RunCommand.device_ip RunCommand.command
       RunCommand.save RunCommand.fmt_opt].
  assert (Hfalsy : RunCommand.falsy (Some ip) = false)
    by (destruct ip; [done | reflexivity]).
  rewrite Hfalsy.
  unfold try_except at 1.
  erewrite bind_eq by reflexivity.
  erewrite bind_eq by reflexivity.
  erewrite bind_eq by exact Hexec.
  erewrite bind_eq by apply print_run.
  erewrite bind_eq by reflexivity.
  unfold try_except, bind, write_file, eprint, save_filename.
  cbn [rand_src rand_pos clock clock_pos disk fs stdout stderr prog usage
       moved set_stdout].
  destruct (disk w _) as [| msg rest];
    cbn [is_Exception exit_status str_exn
         rand_src rand_pos clock clock_pos disk fs stdout stderr prog usage].
  - refine (conj _ (conj _ (conj _ _))); try reflexivity.
    apply lookup_insert_eq.
  - refine (conj _ (conj _ _)); reflexivity.
Qed.

Lemma save_writes_the_output_witness :
  let out := render (fields_of read_only_world) in
  let w1 := moved 26 1 read_only_world in
  let filename :=
    save_filename "1.1.1.1" "show version" (clock w1 (clock_pos w1)) in
  let '(r, w') :=
    RunCommand.script
      (RunCommand.mkNamespace (Some "1.1.1.1") "show version" true false)
      read_only_world in
  exit_status r = 0 /\
  stdout w' = stdout read_only_world +:+ out +:+ nl /\
  match disk read_only_world filename with
  | WriteOk =>
      fs w' !! filename = Some out /\
      stderr w'
      = stderr read_only_world
        +:+ (nl +:+ "Output saved to " +:+ filename) +:+ nl
  | WriteFails msg _ =>
      stderr w'
      = stderr read_only_world
        +:+ (nl +:+ "ERROR: Failed to save file: " +:+ msg) +:+ nl
  end.
Proof.
  apply (save_writes_the_output "1.1.1.1" "show version" read_only_world).
  - discriminate.
  - apply generate_show_version_run, clock_ok_compile_date,
      world_at_clock_ok.
Defined.

(** The same run on a disk that takes the file: the file is there, named
    after the address, the command and the time, and holds the output. *)
Lemma save_example :
  let '(r, w') :=
    RunCommand.script
      (RunCommand.mkNamespace (Some "1.1.1.1") "show running-config"
         true false) quiet_world in
  exit_status r = 0 /\
  stdout w' = RunCommand.INVALID_INPUT +:+ nl /\
  map_to_list (fs w')
  = [("1.1.1.1_show_running-config_20261104_164307.txt",
      RunCommand.INVALID_INPUT)].
Proof. vm_compute. repeat apply conj; reflexivity. Qed.

End Saving.

(** * add.py *)

Section Adder.

Lemma parse_int_value (s : string) (a : Z) :
  parse_int s = Some a <-> int_of_text s = IntValue a.
Proof.
  unfold parse_int. destruct (int_of_text s); split; congruence.
Qed.

(** For arguments that are integers, the adder prints twice the first
    one as the sum, when that has no more digits than the limit, and
    exits with status 0. *)
Lemma add_doubles_the_first (args : Add.Namespace) (a : Z) (w : World) :
  parse_int (Add.num1 args) = Some a ->
  (String.length (str_int (Z.abs (a + a))) <=? MAX_STR_DIGITS)%nat = true ->
  Add.main args w
  = (Raise (SystemExit 0),
     set_stdout (stdout w +:+ Add.dumps_output (a + a) +:+ nl) w).
Proof.
  intros Ha Hlen. apply parse_int_value in Ha.
  unfold Add.main, try_except, py_int. rewrite Ha.
  erewrite bind_eq by reflexivity.
  erewrite bind_eq by reflexivity.
  unfold Add.json_dumps_output, int_repr.
  rewrite Nat.ltb_antisym, Hlen.
  reflexivity.
Qed.

(** C1 fails on the code. With [--num1 1 --num2 2], both of them
    integers, the adder exits with status 0 and prints a JSON object with
    "success": true, but its "sum" is 2, twice the first number, and not
    1 + 2 = 3. *)
Theorem add_ignores_the_second_number :
  parse_int "1" = Some 1 /\ parse_int "2" = Some 2 /\
  let '(r, w') := Add.main (Add.mkNamespace "1" "2") quiet_world in
  exit_status r = 0 /\
  stdout w' = Add.dumps_output 2 +:+ nl /\
  stdout w' <> Add.dumps_output (1 + 2) +:+ nl /\
  Add.dumps_output 2
  = "{" +:+ dq +:+ "success" +:+ dq +:+ ": true, " +:+
    dq +:+ "sum" +:+ dq +:+ ": 2}".
Proof.
  split; [reflexivity |]. split; [reflexivity |].
  rewrite (add_doubles_the_first _ 1) by (vm_compute; reflexivity).
  split; [reflexivity |]. split; [reflexivity |].
  split; [| reflexivity].
  vm_compute. discriminate.
Qed.

End Adder.

(** * Further properties of the generators *)

Section Generators.

Local Arguments String.append !_ _ /.

Lemma picks_length (k : nat) (x : ascii) (l : list ascii) (r : nat -> Z)
    (i : nat) :
  String.length (picks k x l r i) = k.
Proof.
  revert i. induction k as [|k IH]; intros i; [done |].
  cbn [picks String.length]. by rewrite IH.
Qed.

Lemma picks_all_chars (p : ascii -> bool) (k : nat) (x : ascii)
    (l : list ascii) (r : nat -> Z) (i : nat) :
  Forall (fun c => p c = true) (x :: l) ->
  all_chars p (picks k x l r i) = true.
Proof.
  intros H. revert i. induction k as [|k IH]; intros i; [done |].
  cbn [picks all_chars]. rewrite IH, andb_true_r.
  rewrite Forall_forall in H. apply H.
  apply list_elem_of_In, choice_value_In.
Qed.

(** X1. [generate_random_serial] always returns, after exactly 11 draws,
    a text of 11 characters, each an upper-case letter or a digit; it
    prints nothing and reads no clock. *)
Theorem random_serial_form (w : World) :
  exists s : string,
    RunCommand.generate_random_serial w = (Ret s, moved 11 0 w) /\
    String.length s = 11%nat /\
    all_chars is_upper_alnum s = true.
Proof.
  eexists. split.
  - transitivity (RunCommand.generate_random_serial (moved 0 0 w));
      [by rewrite moved_0 |].
    unfold RunCommand.generate_random_serial.
    apply join_choices_moved.
  - split; [apply picks_length |].
    apply picks_all_chars. repeat constructor.
Qed.

Lemma randints_moved (n : nat) (a b : Z) (k c : nat) (w : World) :
  a <= b ->
  RunCommand.randints n a b (moved k c w)
  = (Ret (map (fun i => span a b (raw w (k + i))) (seq 0 n)),
     moved (n + k) c w).
Proof.
  intros Hab. revert k. induction n as [|n IH]; intros k; [reflexivity |].
  cbn [RunCommand.randints].
  erewrite bind_eq by (apply randint_moved; exact Hab).
  erewrite bind_eq by apply IH.
  unfold ret. f_equal.
  - f_equal. cbn [seq map]. f_equal.
    + unfold span, raw. do 3 f_equal. lia.
    + rewrite <- seq_shift, map_map. apply map_ext.
      intros i. unfold span, raw. do 3 f_equal. lia.
  - unfold moved.
    cbn [rand_src rand_pos clock clock_pos disk fs stdout stderr prog usage].
    f_equal. lia.
Qed.

Lemma all_byte_pairs_spec (p : Z -> Z -> bool) (hi lo : Z) :
  all_byte_pairs p = true ->
  0 <= hi <= 255 -> 0 <= lo <= 255 -> p hi lo = true.
Proof.
  unfold all_byte_pairs. intros H Hhi Hlo.
  apply (proj1 (forallb_forall _ _)) with (x := hi) in H;
    [| apply in_seqZ; lia].
  apply (proj1 (forallb_forall _ _)) with (x := lo) in H;
    [| apply in_seqZ; lia].
  exact H.
Qed.

Lemma groups_read_back : all_byte_pairs group_reads_back = true.
Proof. vm_compute. reflexivity. Qed.

(** X2. [generate_random_mac] always returns, after exactly 6 draws,
    three groups joined by dots; each group is four characters of
    lower-case hexadecimal that read back as the two bytes drawn for it
    (256 times the first plus the second), so the text is 14 characters
    long and determines the six bytes. *)
Theorem random_mac_form (w : World) :
  let b := fun i : nat => span 0 255 (raw w i) in
  let group := fun i : nat => format_04x (Z.shiftl (b i) 8 + b (S i)) in
  RunCommand.generate_random_mac w
  = (Ret (group 0%nat +:+ "." +:+ group 2%nat +:+ "." +:+ group 4%nat),
     moved 6 0 w) /\
  (forall i : nat,
     0 <= b i <= 255 /\
     String.length (group i) = 4%nat /\
     hex_value (group i) = Some (256 * b i + b (S i))) /\
  String.length (group 0%nat +:+ "." +:+ group 2%nat +:+ "." +:+ group 4%nat)
  = 14%nat.
Proof.
  intros b group.
  assert (Hb : forall i, 0 <= b i <= 255)
    by (intros i; apply span_range; lia).
  assert (Hg : forall i,
             String.length (group i) = 4%nat /\
             hex_value (group i) = Some (256 * b i + b (S i))).
  { intros i.
    pose proof (all_byte_pairs_spec _ (b i) (b (S i)) groups_read_back
                  (Hb i) (Hb (S i))) as H.
    unfold group_reads_back in H. cbv zeta in H.
    apply andb_true_iff in H as [Hlen Hval].
    apply Nat.eqb_eq in Hlen. split; [exact Hlen |].
    unfold group. destruct (hex_value _) as [v |]; [| discriminate Hval].
    apply Z.eqb_eq in Hval. by rewrite Hval. }
  split; [| split].
  - transitivity (RunCommand.generate_random_mac (moved 0 0 w));
      [by rewrite moved_0 |].
    unfold RunCommand.generate_random_mac.
    erewrite bind_eq by (apply randints_moved; lia).
    reflexivity.
  - intros i. split; [apply Hb | apply Hg].
  - rewrite !length_app_s.
    rewrite (proj1 (Hg 0%nat)), (proj1 (Hg 2%nat)), (proj1 (Hg 4%nat)).
    reflexivity.
Qed.

Lemma random_version_reachable_witness :
  exists w w' : World,
    RunCommand.generate_random_version w
    = (Ret (str_int 17 +:+ "." +:+ str_int 12 +:+ "." +:+
            str_int 9 +:+ nth 5 SUFFIXES EmptyString), w').
Proof.
  apply (random_version_reachable 17 12 9 5); lia.
Defined.

End Generators.

(** * Further properties of the report *)

Section ReportFields.

Local Arguments String.append !_ _ /.

Lemma fields_of_sizes (w : World) : drawn_sizes (fields_of w).
Proof.
  unfold drawn_sizes, fields_of.
  cbn [f_processor_mem f_io_mem f_nvram f_physical_mem f_virtual_disk].
  repeat apply conj; apply pick_In.
Qed.

Lemma compile_date_decided (w : World) :
  compile_date_ok w \/ ~ compile_date_ok w.
Proof. unfold compile_date_ok. lia. Qed.

(** A text is returned only when the compilation date is a date. *)
Lemma generate_show_version_date (w : World) (s : string) (w' : World) :
  RunCommand.generate_show_version w = (Ret s, w') -> compile_date_ok w.
Proof.
  intros Hrun. destruct (compile_date_decided w) as [Hok | Hbad]; [done |].
  rewrite generate_show_version_raises in Hrun by done. discriminate Hrun.
Qed.

(** X3. In every text [generate_show_version] returns, the memory line
    shows a processor memory of 1024000, 2048000, 4096000 or 8192000 and
    an I/O memory of 3075, 6147 or 12291, and the three lines after the
    interfaces show a non-volatile memory, a physical memory and a virtual
    disk, each one of the sizes of its list. *)
Theorem show_version_sizes (w : World) (s : string) (w' : World) :
  RunCommand.generate_show_version w = (Ret s, w') ->
  exists processor io nvram physical disk_size : Z,
    In processor [1024000; 2048000; 4096000; 8192000] /\
    In io [3075; 6147; 12291] /\
    In nvram [32768; 65536; 131072; 262144] /\
    In physical [3984776; 7969552; 15939104] /\
    In disk_size [6139904; 12279808; 24559616] /\
    lines s !! 24%nat
    = Some ("cisco CSR1000V (VXE) processor (revision VXE) with "
            +:+ str_int processor +:+ "K/" +:+ str_int io
            +:+ "K bytes of memory.") /\
    lines s !! 28%nat
    = Some (str_int nvram
            +:+ "K bytes of non-volatile configuration memory.") /\
    lines s !! 29%nat
    = Some (str_int physical +:+ "K bytes of physical memory.") /\
    lines s !! 30%nat
    = Some (str_int disk_size
            +:+ "K bytes of virtual hard disk at bootflash:.").
Proof.
  intros Hrun. apply generate_show_version_inv in Hrun as [-> _].
  pose proof (fields_of_sizes w) as (Hp & Hio & Hnv & Hph & Hvd).
  exists (f_processor_mem (fields_of w)), (f_io_mem (fields_of w)),
    (f_nvram (fields_of w)), (f_physical_mem (fields_of w)),
    (f_virtual_disk (fields_of w)).
  rewrite lines_render by apply fields_of_drawn.
  refine (conj Hp (conj Hio (conj Hnv (conj Hph (conj Hvd _))))).
  repeat apply conj; reflexivity.
Qed.

Lemma show_version_sizes_witness :
  exists processor io nvram physical disk_size : Z,
    In processor [1024000; 2048000; 4096000; 8192000] /\
    In io [3075; 6147; 12291] /\
    In nvram [32768; 65536; 131072; 262144] /\
    In physical [3984776; 7969552; 15939104] /\
    In disk_size [6139904; 12279808; 24559616] /\
    lines (render (fields_of quiet_world)) !! 24%nat
    = Some ("cisco CSR1000V (VXE) processor (revision VXE) with "
            +:+ str_int processor +:+ "K/" +:+ str_int io
            +:+ "K bytes of memory.") /\
    lines (render (fields_of quiet_world)) !! 28%nat
    = Some (str_int nvram
            +:+ "K bytes of non-volatile configuration memory.") /\
    lines (render (fields_of quiet_world)) !! 29%nat
    = Some (str_int physical +:+ "K bytes of physical memory.") /\
    lines (render (fields_of quiet_world)) !! 30%nat
    = Some (str_int disk_size
            +:+ "K bytes of virtual hard disk at bootflash:.").
Proof.
  apply (show_version_sizes quiet_world _ (moved 26 1 quiet_world)).
  apply generate_show_version_run, clock_ok_compile_date,
    quiet_world_clock_ok.
Defined.

(** X4. In every text [generate_show_version] returns, the first two
    lines carry one and the same version, of the form major.minor.patch
    and suffix with major in 15..17, minor in 1..12, patch in 1..9 and a
    suffix of the list of suffixes. *)
Theorem show_version_version_lines (w : World) (s : string) (w' : World) :
  RunCommand.generate_show_version w = (Ret s, w') ->
  exists (major minor patch : Z) (suffix : string),
    15 <= major <= 17 /\ 1 <= minor <= 12 /\ 1 <= patch <= 9 /\
    In suffix SUFFIXES /\
    let version :=
      str_int major +:+ "." +:+ str_int minor +:+ "." +:+
      str_int patch +:+ suffix in
    lines s !! 0%nat = Some ("Cisco IOS XE Software, Version " +:+ version) /\
    lines s !! 1%nat
    = Some ("Cisco IOS Software [Amsterdam], Virtual XE Software (X86_64_LINUX_IOSD-UNIVERSALK9-M), Version "
            +:+ version +:+ ", RELEASE SOFTWARE (fc3)").
Proof.
  intros Hrun. apply generate_show_version_inv in Hrun as [-> _].
  exists (span 15 17 (raw w 0)), (span 1 12 (raw w 1)),
    (span 1 9 (raw w 2)),
    (pick EmptyString [EmptyString; EmptyString; "a"; "b"; "c"] (raw w 3)).
  refine (conj _ (conj _ (conj _ (conj _ _))));
    try (apply span_range; lia).
  - apply pick_In.
  - cbv zeta. rewrite lines_render by apply fields_of_drawn.
    split; reflexivity.
Qed.

Lemma show_version_version_lines_witness :
  exists (major minor patch : Z) (suffix : string),
    15 <= major <= 17 /\ 1 <= minor <= 12 /\ 1 <= patch <= 9 /\
    In suffix SUFFIXES /\
    let version :=
      str_int major +:+ "." +:+ str_int minor +:+ "." +:+
      str_int patch +:+ suffix in
    lines (render (fields_of quiet_world)) !! 0%nat
    = Some ("Cisco IOS XE Software, Version " +:+ version) /\
    lines (render (fields_of quiet_world)) !! 1%nat
    = Some ("Cisco IOS Software [Amsterdam], Virtual XE Software (X86_64_LINUX_IOSD-UNIVERSALK9-M), Version "
            +:+ version +:+ ", RELEASE SOFTWARE (fc3)").
Proof.
  apply (show_version_version_lines quiet_world _ (moved 26 1 quiet_world)).
  apply generate_show_version_run, clock_ok_compile_date,
    quiet_world_clock_ok.
Defined.

(** X5. In every text [generate_show_version] returns, the fifth line is
    "Compiled", the date and " by mcpre", where the date is the reading
    of the clock moved back by a whole number of days between 30 and 1095,
    with the time of day of the reading, and is a date of the calendar
    (not before 0001-01-01). *)
Theorem show_version_compile_line (w : World) (s : string) (w' : World) :
  RunCommand.generate_show_version w = (Ret s, w') ->
  let now := clock w (clock_pos w) in
  exists age : Z,
    30 <= age <= 1095 /\
    0 < dt_ordinal now - age <= MAXORDINAL /\
    lines s !! 4%nat
    = Some ("Compiled "
            +:+ strftime_compile
                  (mkDatetime (dt_ordinal now - age) (dt_hour now)
                     (dt_minute now) (dt_second now))
            +:+ " by mcpre").
Proof.
  intros Hrun now.
  pose proof (generate_show_version_date _ _ _ Hrun) as Hdate.
  apply generate_show_version_inv in Hrun as [-> _].
  exists (span 30 1095 (raw w 21)).
  split; [apply span_range; lia |].
  split; [exact Hdate |].
  rewrite lines_render by apply fields_of_drawn. reflexivity.
Qed.

Lemma show_version_compile_line_witness :
  let now := clock quiet_world (clock_pos quiet_world) in
  exists age : Z,
    30 <= age <= 1095 /\
    0 < dt_ordinal now - age <= MAXORDINAL /\
    lines (render (fields_of quiet_world)) !! 4%nat
    = Some ("Compiled "
            +:+ strftime_compile
                  (mkDatetime (dt_ordinal now - age) (dt_hour now)
                     (dt_minute now) (dt_second now))
            +:+ " by mcpre").
Proof.
  apply (show_version_compile_line quiet_world _ (moved 26 1 quiet_world)).
  apply generate_show_version_run, clock_ok_compile_date,
    quiet_world_clock_ok.
Defined.

(** X6. Every text [generate_show_version] returns has exactly 33 lines,
    and its 26th line is "Processor board ID " and a serial number of 11
    characters, each an upper-case letter or a digit. *)
Theorem show_version_serial_line (w : World) (s : string) (w' : World) :
  RunCommand.generate_show_version w = (Ret s, w') ->
  length (lines s) = 33%nat /\
  exists serial : string,
    lines s !! 25%nat = Some ("Processor board ID " +:+ serial) /\
    String.length serial = 11%nat /\
    all_chars is_upper_alnum serial = true.
Proof.
  intros Hrun. apply generate_show_version_inv in Hrun as [-> _].
  rewrite lines_render by apply fields_of_drawn.
  split; [reflexivity |].
  exists (f_serial (fields_of w)).
  split; [reflexivity |].
  unfold fields_of. cbn [f_serial].
  split; [apply picks_length |].
  apply picks_all_chars. repeat constructor.
Qed.

Lemma show_version_serial_line_witness :
  length (lines (render (fields_of quiet_world))) = 33%nat /\
  exists serial : string,
    lines (render (fields_of quiet_world)) !! 25%nat
    = Some ("Processor board ID " +:+ serial) /\
    String.length serial = 11%nat /\
    all_chars is_upper_alnum serial = true.
Proof.
  apply (show_version_serial_line quiet_world _ (moved 26 1 quiet_world)).
  apply generate_show_version_run, clock_ok_compile_date,
    quiet_world_clock_ok.
Defined.

(** X7. Whatever it answers, [generate_show_version] prints nothing,
    writes no file and reads the clock once. When it returns a text it
    has used exactly 26 draws; otherwise it raises [OverflowError], from
    the subtraction of the days, after 22 draws. *)
Theorem generate_show_version_effects (w : World) :
  let '(r, w') := RunCommand.generate_show_version w in
  stdout w' = stdout w /\ stderr w' = stderr w /\ fs w' = fs w /\
  clock_pos w' = S (clock_pos w) /\
  match r with
  | Ret _ => rand_pos w' = (26 + rand_pos w)%nat
  | Raise e =>
      e = OverflowError "date value out of range" /\
      rand_pos w' = (22 + rand_pos w)%nat
  end.
Proof.
  destruct (compile_date_decided w) as [Hok | Hbad].
  - rewrite generate_show_version_run by done.
    repeat apply conj; reflexivity.
  - rewrite generate_show_version_raises by done.
    repeat apply conj; reflexivity.
Qed.

End ReportFields.

(** * Further properties of the scripts *)

Section ScriptRuns.

Local Arguments String.append !_ _ /.

Lemma falsy_nonempty (ip : string) :
  ip <> EmptyString -> RunCommand.falsy (Some ip) = false.
Proof. intros H. destruct ip; [done | reflexivity]. Qed.

(** X8. An empty [-device_ip] counts as a missing one: without [-list],
    whatever the command and the [-save] flag, the script exits with
    status 2, prints nothing on standard output, writes no file, and puts
    the usage text and the error message on the error stream. *)
Theorem empty_device_ip_fails (command : string) (save : bool) (w : World) :
  let '(r, w') :=
    RunCommand.script
      (RunCommand.mkNamespace (Some EmptyString) command save false) w in
  exit_status r = 2 /\
  stdout w' = stdout w /\ fs w' = fs w /\
  stderr w'
  = stderr w +:+ usage w +:+ prog w +:+
    ": error: -device_ip is required (unless using -list)" +:+ nl.
Proof.
  unfold RunCommand.script, try_except, RunCommand.main.
  cbn [RunCommand.list_ RunCommand.device_ip RunCommand.falsy].
  erewrite bind_eq by reflexivity.
  erewrite bind_raise by reflexivity.
  cbn [is_Exception exit_status].
  cbn [rand_src rand_pos clock clock_pos disk fs stdout stderr prog usage].
  repeat apply conj; done.
Qed.

(** X9. Without [-save] and [-list], with a device address, once the
    command has given its output the script prints it and ends with
    status 0; it writes no file, nothing on the error stream, and does
    not read the clock for a time stamp. *)
Theorem without_save_writes_no_file (ip command : string) (w : World)
    (out : string) (w1 : World) :
  ip <> EmptyString ->
  RunCommand.execute_mock_command command w = (Ret out, w1) ->
  let '(r, w') :=
    RunCommand.script
      (RunCommand.mkNamespace (Some ip) command false false) w in
  exit_status r = 0 /\
  stdout w' = stdout w +:+ out +:+ nl /\
  stderr w' = stderr w /\ fs w' = fs w /\
  clock_pos w' = clock_pos w1 /\ rand_pos w' = rand_pos w1.
Proof.
  intros Hip Hexec.
  destruct (execute_mock_command_inv _ _ _ _ Hexec) as (n & c & ->).
  unfold RunCommand.script, RunCommand.main.
  cbn [RunCommand.list_ RunCommand.device_ip RunCommand.command
       RunCommand.save].
  rewrite (falsy_nonempty ip Hip).
  unfold try_except.
  erewrite bind_eq by reflexivity.
  erewrite bind_eq by reflexivity.
  erewrite bind_eq by exact Hexec.
  erewrite bind_eq by apply print_run.
  cbn [ret exit_status].
  repeat apply conj; reflexivity.
Qed.

Lemma without_save_writes_no_file_witness :
  let out := render (fields_of quiet_world) in
  let w1 := moved 26 1 quiet_world in
  let '(r, w') :=
    RunCommand.script
      (RunCommand.mkNamespace (Some "1.1.1.1") "show version" false false)
      quiet_world in
  exit_status r = 0 /\
  stdout w' = stdout quiet_world +:+ out +:+ nl /\
  stderr w' = stderr quiet_world /\ fs w' = fs quiet_world /\
  clock_pos w' = clock_pos w1 /\ rand_pos w' = rand_pos w1.
Proof.
  apply (without_save_writes_no_file "1.1.1.1" "show version" quiet_world).
  - discriminate.
  - apply generate_show_version_run, clock_ok_compile_date,
      quiet_world_clock_ok.
Defined.

(** X10. When the compilation date cannot be computed (the clock reads a
    day less than the drawn age after 0001-01-01), "show version" with a
    device address ends in the handler at the end of the script: exit
    status 1, the message of the exception after "% Error: " on the error
    stream, nothing on standard output and no file, with or without
    [-save]. *)
Theorem failed_generation_exits_1 (ip : string) (save : bool) (w : World) :
  ip <> EmptyString ->
  ~ compile_date_ok w ->
  let '(r, w') :=
    RunCommand.script
      (RunCommand.mkNamespace (Some ip) "show version" save false) w in
  exit_status r = 1 /\
  stdout w' = stdout w /\ fs w' = fs w /\
  stderr w'
  = stderr w +:+ (nl +:+ "% Error: " +:+ "date value out of range") +:+ nl.
Proof.
  intros Hip Hdate.
  unfold RunCommand.script, RunCommand.main.
  cbn [RunCommand.list_ RunCommand.device_ip RunCommand.command].
  rewrite (falsy_nonempty ip Hip).
  unfold try_except.
  erewrite bind_eq by reflexivity.
  erewrite bind_eq by reflexivity.
  erewrite bind_raise
    by (rewrite execute_known; by apply generate_show_version_raises).
  cbn [is_Exception str_exn].
  erewrite bind_eq by apply eprint_run.
  cbn [sys_exit raise exit_status].
  repeat apply conj; reflexivity.
Qed.

Lemma failed_generation_exits_1_witness :
  let '(r, w') :=
    RunCommand.script
      (RunCommand.mkNamespace (Some "1.1.1.1") "show version" true false)
      early_world in
  exit_status r = 1 /\
  stdout w' = stdout early_world /\ fs w' = fs early_world /\
  stderr w'
  = stderr early_world
    +:+ (nl +:+ "% Error: " +:+ "date value out of range") +:+ nl.
Proof.
  apply (failed_generation_exits_1 "1.1.1.1" true early_world).
  - discriminate.
  - unfold compile_date_ok, MAXORDINAL. vm_compute. intros [H _].
    discriminate H.
Defined.

(** X11. A command that is not in the registry is no failure of the
    script: with a device address and without [-save], it prints the
    fixed text "% Invalid input detected at '^' marker." and ends with
    status 0, using no draw and no reading of the clock and leaving the
    error stream and the files alone. *)
Theorem unknown_command_exits_0 (ip command : string) (w : World) :
  ip <> EmptyString ->
  ~ In command (RunCommand.keys RunCommand.MOCK_RESPONSES) ->
  RunCommand.script
    (RunCommand.mkNamespace (Some ip) command false false) w
  = (Ret tt,
     set_stdout
       (stdout w +:+ "% Invalid input detected at '^' marker." +:+ nl) w).
Proof.
  intros Hip Hnot.
  assert (Hne : command <> "show version")
    by (intros ->; apply Hnot; by left).
  unfold RunCommand.script, RunCommand.main.
  cbn [RunCommand.list_ RunCommand.device_ip RunCommand.command
       RunCommand.save].
  rewrite (falsy_nonempty ip Hip).
  unfold try_except.
  erewrite bind_eq by reflexivity.
  erewrite bind_eq by reflexivity.
  erewrite bind_eq by (by apply execute_unknown).
  erewrite bind_eq by apply print_run.
  reflexivity.
Qed.

Lemma unknown_command_exits_0_witness :
  RunCommand.script
    (RunCommand.mkNamespace (Some "10.0.0.1") "show ip route" false false)
    quiet_world
  = (Ret tt,
     set_stdout
       (stdout quiet_world
        +:+ "% Invalid input detected at '^' marker." +:+ nl) quiet_world).
Proof.
  apply (unknown_command_exits_0 "10.0.0.1" "show ip route" quiet_world).
  - discriminate.
  - simpl. intros [H | []]. discriminate H.
Defined.

(** X12. With [-save], whether the write succeeds or fails, every path
    other than the one file the script names keeps what it held. *)
Theorem save_leaves_other_files (ip command : string) (w : World)
    (out : string) (w1 : World) (path : string) :
  ip <> EmptyString ->
  RunCommand.execute_mock_command command w = (Ret out, w1) ->
  path <> save_filename ip command (clock w1 (clock_pos w1)) ->
  let '(_, w') :=
    RunCommand.script
      (RunCommand.mkNamespace (Some ip) command true false) w in
  fs w' !! path = fs w !! path.
Proof.
  intros Hip Hexec Hpath.
  destruct (execute_mock_command_inv _ _ _ _ Hexec) as (n & c & ->).
  unfold RunCommand.script, RunCommand.main.
  cbn [RunCommand.list_ RunCommand.device_ip RunCommand.command
       RunCommand.save RunCommand.fmt_opt].
  rewrite (falsy_nonempty ip Hip).
  unfold try_except at 1.
  erewrite bind_eq by reflexivity.
  erewrite bind_eq by reflexivity.
  erewrite bind_eq by exact Hexec.
  erewrite bind_eq by apply print_run.
  erewrite bind_eq by reflexivity.
  unfold try_except, bind, write_file, eprint.
  unfold save_filename in Hpath.
  cbn [rand_src rand_pos clock clock_pos disk fs stdout stderr prog usage
       moved set_stdout] in *.
  destruct (disk w _) as [| msg [rest |]];
    cbn [is_Exception
         rand_src rand_pos clock clock_pos disk fs stdout stderr prog usage].
  - by apply lookup_insert_ne.
  - by apply lookup_insert_ne.
  - reflexivity.
Qed.

Lemma save_leaves_other_files_witness :
  let '(_, w') :=
    RunCommand.script
      (RunCommand.mkNamespace (Some "1.1.1.1") "show version" true false)
      quiet_world in
  fs w' !! "startup-config" = fs quiet_world !! "startup-config".
Proof.
  apply (save_leaves_other_files "1.1.1.1" "show version" quiet_world
           (render (fields_of quiet_world)) (moved 26 1 quiet_world)).
  - discriminate.
  - apply generate_show_version_run, clock_ok_compile_date,
      quiet_world_clock_ok.
  - vm_compute. discriminate.
Defined.

End ScriptRuns.

(** * The name of the saved file *)

Section FileName.

Local Arguments String.append !_ _ /.

Lemma replace_char_length (a b : ascii) (s : string) :
  String.length (replace_char a b s) = String.length s.
Proof. induction s as [|c s IH]; simpl; [done | by rewrite IH]. Qed.

Lemma replace_char_gone (a b : ascii) (s : string) :
  a <> b -> has_char a (replace_char a b s) = false.
Proof.
  intros Hab. induction s as [|c s IH]; simpl; [done |].
  rewrite IH, orb_false_r.
  destruct (Ascii.eqb_spec c a) as [-> | Hc].
  - apply Ascii.eqb_neq. congruence.
  - by apply Ascii.eqb_neq.
Qed.

Lemma uint_no_space (u : Decimal.uint) :
  has_char " " (NilEmpty.string_of_uint u) = false.
Proof. induction u; simpl; auto. Qed.

Lemma str_int_no_space (z : Z) : has_char " " (str_int z) = false.
Proof.
  unfold str_int, NilZero.string_of_int, NilZero.string_of_uint.
  destruct (Z.to_int z) as [u | u]; destruct u; simpl;
    auto using uint_no_space.
Qed.

Lemma pad2_no_space (z : Z) : has_char " " (pad2 z) = false.
Proof.
  unfold pad2. destruct (z <? 10); [| apply str_int_no_space].
  rewrite has_char_app, str_int_no_space. reflexivity.
Qed.

Lemma pad4_no_space (z : Z) : has_char " " (pad4 z) = false.
Proof.
  unfold pad4.
  destruct (z <? 10); [| destruct (z <? 100); [| destruct (z <? 1000)]];
    rewrite ?has_char_app, str_int_no_space; reflexivity.
Qed.

(** X13. The name of the file [-save] writes has no blank in it when the
    device address has none: every blank of the command is written as an
    underscore, and the time stamp has none. The command keeps its
    length in the name. *)
Theorem save_filename_no_space (ip command : string) (now : datetime) :
  has_char " " ip = false ->
  has_char " " (save_filename ip command now) = false /\
  String.length (replace_char " " "_" command) = String.length command.
Proof.
  intros Hip. split; [| apply replace_char_length].
  unfold save_filename, strftime_stamp.
  destruct (ord2ymd (dt_ordinal now)) as [[y m] d].
  rewrite !has_char_app, Hip, replace_char_gone by discriminate.
  rewrite pad4_no_space, !pad2_no_space. reflexivity.
Qed.

Lemma save_filename_no_space_witness :
  has_char " " (save_filename "192.168.1.1" "show ip  route"
                  (mkDatetime 739924 16 43 7)) = false /\
  String.length (replace_char " " "_" "show ip  route")
  = String.length "show ip  route".
Proof.
  apply (save_filename_no_space "192.168.1.1" "show ip  route").
  reflexivity.
Defined.

End FileName.

(** * Further properties of add.py *)

Section AdderRuns.

Local Arguments String.append !_ _ /.

Lemma json_char_no_lf (c : ascii) : has_char LF (json_char c) = false.
Proof. destruct c as [[] [] [] [] [] [] [] []]; reflexivity. Qed.

Lemma json_body_no_lf (s : string) : has_char LF (json_body s) = false.
Proof.
  induction s as [|c s IH]; [done |].
  cbn [json_body]. by rewrite has_char_app, json_char_no_lf, IH.
Qed.

Lemma json_string_no_lf (s : string) : has_char LF (json_string s) = false.
Proof.
  unfold json_string. by rewrite !has_char_app, json_body_no_lf.
Qed.

Lemma int_too_long (s : string) (digits : nat) :
  int_of_text s = IntTooLong digits -> (MAX_STR_DIGITS < digits)%nat.
Proof.
  unfold int_of_text.
  destruct (split_sign _) as [negative body].
  destruct (starts_with_underscore body); [discriminate |].
  destruct (scan_digits body 0 0 false) as [value k rest |];
    [| discriminate].
  destruct (Nat.ltb_spec MAX_STR_DIGITS k) as [Hlt | _].
  - intros [= <-]. exact Hlt.
  - destruct (k =? 0)%nat; [discriminate |].
    destruct (lstrip rest); discriminate.
Qed.

Lemma limit_text : str_int (Z.of_nat MAX_STR_DIGITS) = "4300".
Proof. vm_compute. reflexivity. Qed.

(** [int] on some texts: the blanks at both ends are skipped and single
    underscores may stand between digits; the file separator (code 28) is
    no blank; 4301 digits are beyond the limit, also when they are zeros
    and also when another character follows them. *)
Lemma int_of_text_examples :
  int_of_text " 12 " = IntValue 12 /\
  int_of_text "-1_000" = IntValue (-1000) /\
  int_of_text (String "028" "12") = IntInvalid /\
  int_of_text "1__0" = IntInvalid /\
  int_of_text (zeros 4300) = IntValue 0 /\
  int_of_text (zeros 4301) = IntTooLong 4301 /\
  int_of_text (zeros 4301 +:+ "x") = IntTooLong 4301.
Proof. vm_compute. repeat apply conj; reflexivity. Qed.

(** X14. Whatever its arguments in ASCII, the adder prints exactly one
    line on standard output, a JSON object, and its exit status agrees
    with the "success" field. When the first argument is an integer and
    twice its value has no more digits than the limit, the status is 0,
    the line holds that sum and nothing goes to the error stream.
    Otherwise the status is 1 and the line is the error object, with the
    message also after "Error: " on the error stream: the message of an
    invalid literal, with the first 200 characters of the [repr] of the
    argument; or the message of [int] for more than 4300 digits, with
    their number; or the message of [json.dumps] for a sum of more than
    4300 digits. Only the first argument decides the output: the second
    one is never read. *)
Theorem add_prints_one_json_line (args : Add.Namespace) (w : World) :
  all_chars is_ascii (Add.num1 args) = true ->
  let '(r, w') := Add.main args w in
  exists line : string,
    stdout w' = stdout w +:+ line +:+ nl /\
    has_char LF line = false /\
    ((exists a : Z,
        int_of_text (Add.num1 args) = IntValue a /\
        (String.length (str_int (Z.abs (a + a))) <= MAX_STR_DIGITS)%nat /\
        exit_status r = 0 /\
        line = Add.dumps_output (a + a) /\
        stderr w' = stderr w)
     \/
     (exists msg : string,
        exit_status r = 1 /\
        line = Add.dumps_error msg /\
        stderr w' = stderr w +:+ ("Error: " +:+ msg) +:+ nl /\
        ((int_of_text (Add.num1 args) = IntInvalid /\
          msg = "invalid literal for int() with base 10: "
                +:+ take_s 200 (repr (Add.num1 args)))
         \/
         (exists digits : nat,
            int_of_text (Add.num1 args) = IntTooLong digits /\
            (MAX_STR_DIGITS < digits)%nat /\
            msg = "Exceeds the limit (4300 digits) for integer string conversion: value has "
                  +:+ str_int (Z.of_nat digits)
                  +:+ " digits; use sys.set_int_max_str_digits() to increase the limit")
         \/
         (exists a : Z,
            int_of_text (Add.num1 args) = IntValue a /\
            (MAX_STR_DIGITS < String.length (str_int (Z.abs (a + a))))%nat /\
            msg = "Exceeds the limit (4300 digits) for integer string conversion; use sys.set_int_max_str_digits() to increase the limit")))).
Proof.
  intros _.
  unfold Add.main, try_except, py_int.
  destruct (int_of_text (Add.num1 args)) as [a | | digits] eqn:Ha.
  - erewrite bind_eq by reflexivity.
    erewrite bind_eq by reflexivity.
    unfold Add.json_dumps_output, int_repr. rewrite limit_text.
    destruct (Nat.ltb_spec MAX_STR_DIGITS
                (String.length (str_int (Z.abs (a + a))))) as [Hlt | Hle].
    + exists (Add.dumps_error "Exceeds the limit (4300 digits) for integer string conversion; use sys.set_int_max_str_digits() to increase the limit").
      split; [reflexivity |]. split.
      * unfold Add.dumps_error.
        by rewrite !has_char_app, !json_string_no_lf.
      * right. eexists.
        refine (conj eq_refl (conj eq_refl (conj eq_refl _))).
        right. right. exists a. by repeat apply conj.
    + exists (Add.dumps_output (a + a)).
      split; [reflexivity |]. split.
      * unfold Add.dumps_output, Add.output_text.
        by rewrite !has_char_app, !json_string_no_lf, str_int_no_lf.
      * left. exists a. by repeat apply conj.
  - exists (Add.dumps_error
              ("invalid literal for int() with base 10: "
               +:+ take_s 200 (repr (Add.num1 args)))).
    split; [reflexivity |]. split.
    + unfold Add.dumps_error.
      by rewrite !has_char_app, !json_string_no_lf.
    + right. eexists.
      refine (conj eq_refl (conj eq_refl (conj eq_refl _))).
      left. by split.
  - rewrite limit_text.
    exists (Add.dumps_error
              ("Exceeds the limit (4300 digits) for integer string conversion: value has "
               +:+ str_int (Z.of_nat digits)
               +:+ " digits; use sys.set_int_max_str_digits() to increase the limit")).
    split; [reflexivity |]. split.
    + unfold Add.dumps_error.
      by rewrite !has_char_app, !json_string_no_lf.
    + right. eexists.
      refine (conj eq_refl (conj eq_refl (conj eq_refl _))).
      right. left. exists digits.
      refine (conj eq_refl (conj _ eq_refl)).
      by apply int_too_long in Ha.
Qed.

Lemma add_prints_one_json_line_witness :
  let '(r, w') := Add.main (Add.mkNamespace "1x" "2") quiet_world in
  exists line : string,
    stdout w' = stdout quiet_world +:+ line +:+ nl /\
    has_char LF line = false /\
    ((exists a : Z,
        int_of_text "1x" = IntValue a /\
        (String.length (str_int (Z.abs (a + a))) <= MAX_STR_DIGITS)%nat /\
        exit_status r = 0 /\
        line = Add.dumps_output (a + a) /\
        stderr w' = stderr quiet_world)
     \/
     (exists msg : string,
        exit_status r = 1 /\
        line = Add.dumps_error msg /\
        stderr w' = stderr quiet_world +:+ ("Error: " +:+ msg) +:+ nl /\
        ((int_of_text "1x" = IntInvalid /\
          msg = "invalid literal for int() with base 10: "
                +:+ take_s 200 (repr "1x"))
         \/
         (exists digits : nat,
            int_of_text "1x" = IntTooLong digits /\
            (MAX_STR_DIGITS < digits)%nat /\
            msg = "Exceeds the limit (4300 digits) for integer string conversion: value has "
                  +:+ str_int (Z.of_nat digits)
                  +:+ " digits; use sys.set_int_max_str_digits() to increase the limit")
         \/
         (exists a : Z,
            int_of_text "1x" = IntValue a /\
            (MAX_STR_DIGITS < String.length (str_int (Z.abs (a + a))))%nat /\
            msg = "Exceeds the limit (4300 digits) for integer string conversion; use sys.set_int_max_str_digits() to increase the limit")))).
Proof.
  apply (add_prints_one_json_line (Add.mkNamespace "1x" "2") quiet_world).
  reflexivity.
Defined.

End AdderRuns.
